(** * DORA metric lambdas: a shallow embedding of the handlers

    The repository's core is four AWS Lambda handlers, one per DORA metric:

    - [cdk/lambdas/dora_custom_deployment_frequency_metric/index.py]
    - [cdk/lambdas/dora_custom_lead_time_for_change_metric/index.py]
    - [cdk/lambdas/dora_custom_mean_time_to_restore_metric/index.py]
    - [cdk/lambdas/dora_custom_change_failure_rate_metric/index.py]

    Two more handlers stand on the path of the GitHub events to the data
    lake, and are translated too:

    - [cdk/lambdas/kinesis_data_transformation_lambda/index.py]
    - [cdk/lambdas/github_signature_verification_lambda/index.py]

    Each handler is translated below, statement by statement, into a function
    of a small error-and-trace monad.  Python values are an inductive type,
    Python exceptions are explicit results, the module-level configuration
    read from the process environment is a record, and every external
    collaborator (CodePipeline, Athena, SSM OpsCenter, CloudWatch, the clock
    and the [dateutil] parser) is a field of a [World] record, so that the
    theorems quantify over every possible answer of the outside world.

    Left out: the [logger] calls, which neither raise nor are observed (where
    a log line evaluates an expression that can raise, such as
    [json.dumps(event)] or [response['QueryExecutionId']], the expression is
    kept); and the construction of the boto3 clients, taken to succeed.
    Floats ([time.time()], [total_seconds()]) are rationals. *)

From Stdlib Require Import String Ascii List Bool ZArith QArith Lia.
Import ListNotations.

Local Open Scope string_scope.
Local Open Scope Z_scope.

#[local] Set Warnings "-register-all".

(** ** Python values *)

(** A [datetime.datetime]: microseconds since the epoch, either naive (no
    [tzinfo]; the count is of local wall-clock time) or aware (the count is
    of UTC). *)
Inductive datetime : Type :=
| Naive (us : Z)
| Aware (us : Z).

(** The values the handlers see: JSON documents (events, boto3 responses) and
    the [datetime] objects boto3 puts in its responses. A dict is kept as an
    association list; a lookup takes the first binding of a key. *)
Inductive value : Type :=
| VNone
| VBool (b : bool)
| VInt (n : Z)
| VFloat (q : Q)
| VStr (s : string)
| VList (l : list value)
| VDict (d : list (string * value))
| VDatetime (t : datetime).

(** The subclasses of [Exception] the handlers can meet. [SystemExit] is not
    one of them (it derives from [BaseException]); it is the [Exit] outcome
    below. *)
Inductive exn : Type :=
| KeyError
| TypeError
| ValueError
| AttributeError
| IndexError
| PipelineNotFoundException
| ClientError
| UnboundLocalError.

(** Result of a pure Python expression: a value or a raised [Exception]. *)
Inductive res (A : Type) : Type :=
| Ok (a : A)
| Err (e : exn).
Arguments Ok {A} a.
Arguments Err {A} e.

(** ** Strings *)

Definition newline : ascii := "010"%char.
Definition slash : ascii := "/"%char.

(** [needle in hay] for two [str]: substring test. *)
Fixpoint contains (needle hay : string) : bool :=
  String.prefix needle hay
  || match hay with
     | EmptyString => false
     | String _ hay' => contains needle hay'
     end.

(** [s.split("/")]: always at least one part. *)
Fixpoint split (s : string) : list string :=
  match s with
  | EmptyString => [EmptyString]
  | String c s' =>
      if Ascii.eqb c slash then EmptyString :: split s'
      else match split s' with
           | h :: r => String c h :: r
           | [] => [String c EmptyString]
           end
  end.

(** [s] without the prefix [p], when it has it. *)
Fixpoint strip_prefix (p s : string) : option string :=
  match p, s with
  | EmptyString, _ => Some s
  | String a p', String b s' => if Ascii.eqb a b then strip_prefix p' s' else None
  | String _ _, EmptyString => None
  end.

(** The run of non-slash characters before the first slash of [s], and what
    follows that slash; [None] when [s] has no slash. This is how [[^/]+/]
    can match: the class cannot step over a slash, so the run must end
    exactly at the first one. *)
Fixpoint split_first_slash (s : string) : option (string * string) :=
  match s with
  | EmptyString => None
  | String c s' =>
      if Ascii.eqb c slash then Some (EmptyString, s')
      else match split_first_slash s' with
           | Some (run, rest) => Some (String c run, rest)
           | None => None
           end
  end.

(** The longest prefix of [s] without a line break. This is what the lazy
    [(.+?)] followed by [(?:\n|$)] captures: [.] does not match a line
    break, and the group grows until a line break or the end is next. *)
Fixpoint line_prefix (s : string) : string :=
  match s with
  | EmptyString => EmptyString
  | String c s' => if Ascii.eqb c newline then EmptyString else String c (line_prefix s')
  end.

(** The pattern [from [^/]+/(.+?)(?:\n|$)] anchored at the start of [s]:
    group 1 of the match, if any. Both [[^/]+] and [.+?] need at least one
    character. *)
Definition match_here (s : string) : option string :=
  match strip_prefix "from " s with
  | None => None
  | Some r =>
      match split_first_slash r with
      | None => None
      | Some (EmptyString, _) => None
      | Some (String _ _, rest) =>
          match line_prefix rest with
          | EmptyString => None
          | g => Some g
          end
      end
  end.

(** [re.search(pattern, s).group(1)]: the leftmost position where the
    pattern matches. *)
Fixpoint re_search (s : string) : option string :=
  match match_here s with
  | Some g => Some g
  | None =>
      match s with
      | EmptyString => None
      | String _ s' => re_search s'
      end
  end.

(** [x in l] for a list of [str]. *)
Definition in_list (x : string) (l : list string) : bool :=
  existsb (String.eqb x) l.

(** ** Python operators on values *)

Fixpoint lookup (k : string) (d : list (string * value)) : option value :=
  match d with
  | [] => None
  | (k', v) :: d' => if String.eqb k k' then Some v else lookup k d'
  end.

(** The characters of a [str], each a [str] of length one. *)
Fixpoint chars (s : string) : list value :=
  match s with
  | EmptyString => []
  | String c s' => VStr (String c EmptyString) :: chars s'
  end.

(** [v[k]] for a [str] key [k]. *)
Definition subscript (v : value) (k : string) : res value :=
  match v with
  | VDict d => match lookup k d with Some x => Ok x | None => Err KeyError end
  | _ => Err TypeError
  end.

(** [v[i]] for a non-negative [int] index. *)
Definition subscript_int (v : value) (i : nat) : res value :=
  match v with
  | VList l => match nth_error l i with Some x => Ok x | None => Err IndexError end
  | VStr s => match nth_error (chars s) i with Some x => Ok x | None => Err IndexError end
  | VDict _ => Err KeyError
  | _ => Err TypeError
  end.

(** [v[1:]]. *)
Definition slice_from_1 (v : value) : res value :=
  match v with
  | VList l => Ok (VList (tl l))
  | VStr s => Ok (VStr (match s with EmptyString => EmptyString | String _ s' => s' end))
  | VDict _ => Err KeyError
  | _ => Err TypeError
  end.

(** [v.get(k, None)]. *)
Definition dict_get (v : value) (k : string) : res value :=
  match v with
  | VDict d => Ok (match lookup k d with Some x => x | None => VNone end)
  | _ => Err AttributeError
  end.

(** [v == s] for a [str] constant [s]. *)
Definition eq_str (v : value) (s : string) : bool :=
  match v with
  | VStr t => String.eqb t s
  | _ => false
  end.

(** [v == c] where [c] comes from [os.getenv]: a [str], or [None] when the
    variable is not set. *)
Definition eq_env (v : value) (c : option string) : bool :=
  match c with
  | Some s => eq_str v s
  | None => match v with VNone => true | _ => false end
  end.

(** [k in v] for a [str] constant [k]. *)
Definition has_key (k : string) (v : value) : res bool :=
  match v with
  | VDict d => Ok (match lookup k d with Some _ => true | None => false end)
  | VList l => Ok (existsb (fun x => eq_str x k) l)
  | VStr s => Ok (contains k s)
  | _ => Err TypeError
  end.

(** [item in c] where [c] comes from [os.getenv]: on a [str] the operator is
    the substring test and refuses a left operand that is not a [str]; on
    [None] it raises. *)
Definition in_env (item : value) (c : option string) : res bool :=
  match c, item with
  | Some s, VStr r => Ok (contains r s)
  | _, _ => Err TypeError
  end.

(** [bool(v)]. *)
Definition truthy (v : value) : bool :=
  match v with
  | VNone => false
  | VBool b => b
  | VInt n => negb (n =? 0)
  | VFloat q => negb (Qeq_bool q 0)
  | VStr s => negb (String.eqb s EmptyString)
  | VList l => match l with [] => false | _ => true end
  | VDict d => match d with [] => false | _ => true end
  | VDatetime _ => true
  end.

(** [for x in v]: the elements the loop visits. *)
Definition iter (v : value) : res (list value) :=
  match v with
  | VList l => Ok l
  | VDict d => Ok (map (fun kv => VStr (fst kv)) d)
  | VStr s => Ok (chars s)
  | _ => Err TypeError
  end.

(** [json.dumps(v)] without a [default]: a [datetime] is not serializable. *)
Fixpoint json_serializable (v : value) : bool :=
  match v with
  | VDatetime _ => false
  | VList l => forallb json_serializable l
  | VDict d => forallb (fun kv => json_serializable (snd kv)) d
  | _ => true
  end.

Definition json_dumps (v : value) : res unit :=
  if json_serializable v then Ok tt else Err TypeError.

(** [a - b] for a [datetime] [a]: a [timedelta] in microseconds. Mixing a
    naive and an aware operand, or subtracting anything that is not a
    [datetime], raises [TypeError]. *)
Definition datetime_sub (a : datetime) (b : value) : res Z :=
  match a, b with
  | Naive x, VDatetime (Naive y) => Ok (x - y)
  | Aware x, VDatetime (Aware y) => Ok (x - y)
  | _, _ => Err TypeError
  end.

(** [timedelta.total_seconds()]: the microseconds as seconds, a rational in
    lowest terms standing for the [float]. *)
Definition total_seconds (us : Z) : Q := Qred (us # 1000000).

(** ** The outside world *)

(** One entry of CloudWatch's [put_metric_data(Namespace=..., MetricData=[{...}])]. *)
Record MetricSample : Type := mkSample {
  Namespace : string;
  MetricName : string;
  Unit : string;
  Value : value
}.

(** The module-level configuration, read once from the process environment
    with [os.getenv]: each entry is a [str], or [None] when not set. *)
Record Config : Type := mkConfig {
  default_branch : option string;
  app_prod_stage_name : option string;
  app_repo_list : option string;
  output_location : option string;
  database : option string;
  table : option string
}.

(** The calls a handler makes to its collaborators, in order. *)
Inductive call : Type :=
| CallGetPipeline (name : value)
| CallGetPipelineState (name : value)
| CallDescribeOpsItems (ops_item_id : value)
| CallStartQueryExecution (commit_id repository_name : value)
| CallGetQueryExecution (execution_id : value)
| CallGetQueryResults (execution_id : value)
| CallSleep (seconds : Z)
| CallPutMetricData (sample : MetricSample).

(** What the collaborators answer. Each service call returns a response or
    raises an [Exception]; the two readings of [time.time()] in the Athena
    poll are in seconds; [parse] is [dateutil.parser.parse] on a [str]. The
    Athena query text is determined by the configuration, the commit id and
    the repository name, which [start_query_execution] receives as such. *)
Record World : Type := mkWorld {
  get_pipeline : value -> res value;
  get_pipeline_state : value -> res value;
  describe_ops_items : value -> res value;
  start_query_execution : Config -> value -> value -> res value;
  get_query_execution : value -> res value;
  get_query_results : value -> res value;
  put_metric_data : MetricSample -> res value;
  time_at_start : Q;
  time_at_check : Q;
  parse : string -> res datetime
}.

(** ** The monad of handlers *)

(** How a piece of code ends: it returns, raises an [Exception], or leaves
    through [sys.exit(code)], which [except Exception] does not catch. *)
Inductive outcome (A : Type) : Type :=
| Return (a : A)
| Raise (e : exn)
| Exit (code : Z).
Arguments Return {A} a.
Arguments Raise {A} e.
Arguments Exit {A} code.

(** A computation: its outcome and the calls it made. *)
Definition M (A : Type) : Type := (outcome A * list call)%type.

Definition ret {A} (a : A) : M A := (Return a, []).
Definition raise {A} (e : exn) : M A := (Raise e, []).
Definition sys_exit {A} (code : Z) : M A := (Exit code, []).

Definition bind {A B} (m : M A) (f : A -> M B) : M B :=
  match m with
  | (Return a, t) => let (o, t') := f a in (o, (t ++ t')%list)
  | (Raise e, t) => (Raise e, t)
  | (Exit c, t) => (Exit c, t)
  end.

(** [try: m  except Exception as e: h e]. *)
Definition try_except {A} (m : M A) (h : exn -> M A) : M A :=
  match m with
  | (Raise e, t) => let (o, t') := h e in (o, (t ++ t')%list)
  | _ => m
  end.

Definition lift {A} (r : res A) : M A :=
  match r with
  | Ok a => ret a
  | Err e => raise e
  end.

(** A call to a collaborator: recorded, then its answer. *)
Definition call_ext {A} (c : call) (r : res A) : M A :=
  match r with
  | Ok a => (Return a, [c])
  | Err e => (Raise e, [c])
  end.

Definition rbind {A B} (r : res A) (f : A -> res B) : res B :=
  match r with
  | Ok a => f a
  | Err e => Err e
  end.

Declare Scope py_scope.
Delimit Scope py_scope with py.
Notation "'let*' x := m 'in' k" := (bind m (fun x => k))
  (at level 10, x pattern, m at level 100, k at level 200) : py_scope.
Notation "'let?' x := r 'in' k" := (rbind r (fun x => k))
  (at level 10, x pattern, r at level 100, k at level 200) : py_scope.
Local Open Scope py_scope.

(** The samples sent to CloudWatch among the calls of a trace. *)
Fixpoint sinks (t : list call) : list MetricSample :=
  match t with
  | [] => []
  | CallPutMetricData s :: t' => s :: sinks t'
  | _ :: t' => sinks t'
  end.

(** ** Shared pieces of the handlers *)

Definition quote : ascii := "034"%char.

(** [json.dumps(s)] for a [str] without characters to escape. *)
Definition json_dumps_str (s : string) : string :=
  String quote (s ++ String quote EmptyString).

(** [{"statusCode": code, "body": json.dumps(body)}]. *)
Definition response (code : Z) (body : string) : value :=
  VDict [("statusCode", VInt code); ("body", VStr (json_dumps_str body))].

(** The list comprehension of [get_stage_details]:
    [[{"name": stage["stageName"], "status": stage["latestExecution"]["status"]} for stage in stages]]. *)
Fixpoint stage_summaries (stages : list value) : res (list value) :=
  match stages with
  | [] => Ok []
  | stage :: rest =>
      let? name := subscript stage "stageName" in
      let? latest := subscript stage "latestExecution" in
      let? status := subscript latest "status" in
      let? tail := stage_summaries rest in
      Ok (VDict [("name", name); ("status", status)] :: tail)
  end.

(** The generator under [any(...)] in the trunk-based branch of three handlers:
    [stage["name"] == app_prod_stage_name and stage["status"] == "Succeeded"],
    with [any]'s short circuit. *)
Fixpoint any_stage_succeeded (prod : option string) (stages : list value) : res bool :=
  match stages with
  | [] => Ok false
  | stage :: rest =>
      let? name := subscript stage "name" in
      if eq_env name prod then
        let? status := subscript stage "status" in
        if eq_str status "Succeeded" then Ok true
        else any_stage_succeeded prod rest
      else any_stage_succeeded prod rest
  end.

(** [any(... for stage in stage_details)]: iterating [None] raises. *)
Definition deploy_stage_success (prod : option string) (stage_details : value) : res bool :=
  let? stages := iter stage_details in
  any_stage_succeeded prod stages.

(** ** [dora_custom_deployment_frequency_metric/index.py] *)

Module DeploymentFrequency.

(** The inner loop of [extract_branch_from_pipeline_details]: the first
    action of category "Source" gives the pair; [None] here means the loop
    ran to its end. *)
Fixpoint scan_actions (actions : list value) : res (option (value * value)) :=
  match actions with
  | [] => Ok None
  | action :: rest =>
      let? type_id := subscript action "actionTypeId" in
      let? category := subscript type_id "category" in
      if eq_str category "Source" then
        let? configuration := subscript action "configuration" in
        let? branch_name := dict_get configuration "BranchName" in
        let? repository_name := dict_get configuration "RepositoryName" in
        Ok (Some (branch_name, repository_name))
      else scan_actions rest
  end.

(** The outer loop: every stage named "Source" is searched, in order. *)
Fixpoint scan_stages (stages : list value) : res (option (value * value)) :=
  match stages with
  | [] => Ok None
  | stage :: rest =>
      let? name := subscript stage "name" in
      if eq_str name "Source" then
        let? actions := subscript stage "actions" in
        let? actions := iter actions in
        let? found := scan_actions actions in
        match found with
        | Some tuple => Ok (Some tuple)
        | None => scan_stages rest
        end
      else scan_stages rest
  end.

(** The function returns the tuple [(branch_name, repository_name)], or
    falls out of the loop and returns the single object [None]. *)
Definition extract_branch_from_pipeline_details (pipeline_details : value)
  : res (option (value * value)) :=
  let? pipeline := subscript pipeline_details "pipeline" in
  let? stages := subscript pipeline "stages" in
  let? stages := iter stages in
  scan_stages stages.

(** [branch_name, repository_name = <result>]: unpacking [None] raises
    [TypeError]. *)
Definition unpack_pair (r : option (value * value)) : res (value * value) :=
  match r with
  | Some tuple => Ok tuple
  | None => Err TypeError
  end.

Definition sample : MetricSample :=
  mkSample "DORA" "DeploymentFrequency" "Count" (VInt 1).

Section Handler.
Variable cfg : Config.
Variable w : World.

Definition get_stage_details (pipeline_name : value) : M value :=
  try_except
    (let* response :=
       call_ext (CallGetPipelineState pipeline_name) (get_pipeline_state w pipeline_name) in
     let* present := lift (has_key "stageStates" response) in
     if present : bool then
       let* stages := lift (subscript response "stageStates") in
       let* stages := lift (iter stages) in
       let* stage_details := lift (stage_summaries stages) in
       ret (VList stage_details)
     else ret (VList []))
    (fun _ => ret VNone).

Definition deployment_frequency_metric : M unit :=
  try_except
    (let* _ := call_ext (CallPutMetricData sample) (put_metric_data w sample) in
     ret tt)
    (fun _ => ret tt).

Definition lambda_handler (event : value) : M value :=
  try_except
    (let* _ := lift (json_dumps event) in
     let* detail := lift (subscript event "detail") in
     let* pipeline_execution_status := lift (subscript detail "state") in
     let* pipeline_name := lift (subscript detail "pipeline") in
     let* pipeline_details :=
       call_ext (CallGetPipeline pipeline_name) (get_pipeline w pipeline_name) in
     let* source := lift (extract_branch_from_pipeline_details pipeline_details) in
     let* (branch_name, repository_name) := lift (unpack_pair source) in
     let* stage_details := get_stage_details pipeline_name in
     let* trunk_based := lift (in_env repository_name (app_repo_list cfg)) in
     let* _ :=
       if trunk_based : bool then
         let* success := lift (deploy_stage_success (app_prod_stage_name cfg) stage_details) in
         if success : bool then deployment_frequency_metric else ret tt
       else
         if eq_str pipeline_execution_status "SUCCEEDED" && eq_str branch_name "master"
         then deployment_frequency_metric
         else ret tt in
     ret (response 200 "Deployment frequency metric updated successfully"))
    (fun _ => ret (response 500 "Error processing the event")).

End Handler.

End DeploymentFrequency.

(** ** [dora_custom_change_failure_rate_metric/index.py] *)

Module ChangeFailureRate.

Definition sample : MetricSample :=
  mkSample "DORA/ChangeFailureRate" "TotalFailedItems" "Count" (VInt 1).

Section Handler.
Variable w : World.

Definition failed_deployments_metric : M unit :=
  try_except
    (let* _ := call_ext (CallPutMetricData sample) (put_metric_data w sample) in
     ret tt)
    (fun _ => ret tt).

Definition lambda_handler (event : value) : M value :=
  try_except
    (let* _ := lift (json_dumps event) in
     let* detail_type := lift (subscript event "detail-type") in
     let* detail := lift (subscript event "detail") in
     let* ops_item_status := lift (subscript detail "status") in
     let* _ :=
       if eq_str detail_type "OpsItem Create" && eq_str ops_item_status "Open"
       then failed_deployments_metric
       else ret tt in
     ret (response 200 "Metric updated successfully"))
    (fun _ => ret (response 500 "Error processing the event")).

End Handler.

End ChangeFailureRate.

(** ** [dora_custom_mean_time_to_restore_metric/index.py] *)

Module MeanTimeToRestore.

Definition known_prefixes : list string := ["fix"; "hotfix"].
Definition known_suffixes : list string := ["hotfix"; "fix"].

(** [re.search] refuses a message that is not a [str]; without a match the
    function returns [None]. *)
Definition extract_source_branch_name (commit_message : value) : res value :=
  match commit_message with
  | VStr message =>
      match re_search message with
      | Some branch_name =>
          let parts := split branch_name in
          if (length parts =? 3)%nat
             && in_list (nth 0 parts EmptyString) known_prefixes
             && in_list (last parts EmptyString) known_suffixes
          then Ok (VStr (nth 1 parts EmptyString))
          else Ok (VStr (last parts EmptyString))
      | None => Ok VNone
      end
  | _ => Err TypeError
  end.

Definition sample (downtime_seconds : Q) : MetricSample :=
  mkSample "DORA/MeanTimeToRestore" "Downtime-OPS-Item" "Seconds" (VFloat downtime_seconds).

Section Handler.
Variable cfg : Config.
Variable w : World.

(** [dateutil.parser.parse(v)]: only a [str] is parsed. *)
Definition parse_value (v : value) : res datetime :=
  match v with
  | VStr s => parse w s
  | _ => Err TypeError
  end.

(** Both [except] clauses log and return [None]. *)
Definition get_stage_details (pipeline_name : value) : M value :=
  try_except
    (let* response :=
       call_ext (CallGetPipelineState pipeline_name) (get_pipeline_state w pipeline_name) in
     let* present := lift (has_key "stageStates" response) in
     if present : bool then
       let* stages := lift (subscript response "stageStates") in
       let* stages := lift (iter stages) in
       let* stage_details := lift (stage_summaries stages) in
       ret (VList stage_details)
     else ret (VList []))
    (fun e =>
       match e with
       | PipelineNotFoundException => ret VNone
       | _ => ret VNone
       end).

Definition calculate_downtime (creation_time final_time_str : value) : res Q :=
  let? final_time := parse_value final_time_str in
  let? downtime := datetime_sub final_time creation_time in
  Ok (total_seconds downtime).

Definition send_to_cloudwatch (pipeline_name source_reference : value) (downtime_seconds : Q)
  : M unit :=
  try_except
    (let* _ :=
       call_ext (CallPutMetricData (sample downtime_seconds))
                (put_metric_data w (sample downtime_seconds)) in
     ret tt)
    (fun _ => ret tt).

(** Reading the local [source_reference], which is bound only in the
    branch of the handler that looks for an OpsItem. *)
Definition read_local (source_reference : option value) : res value :=
  match source_reference with
  | Some v => Ok v
  | None => Err UnboundLocalError
  end.

(** The block under [if branch_name == default_branch and state == "SUCCEEDED"]:
    it leaves [final_time], [source_reference] and [creation_time]. *)
Definition find_ops_item (event commit_message : value) : M (value * value * value) :=
  let* final_time := lift (subscript event "time") in
  let* source_reference := lift (extract_source_branch_name commit_message) in
  let* ops_items :=
    call_ext (CallDescribeOpsItems source_reference) (describe_ops_items w source_reference) in
  let* present := lift (has_key "OpsItemSummaries" ops_items) in
  let* found :=
    if present : bool then
      let* summaries := lift (subscript ops_items "OpsItemSummaries") in
      ret (truthy summaries)
    else ret false in
  if found : bool then
    let* summaries := lift (subscript ops_items "OpsItemSummaries") in
    let* ops_item := lift (subscript_int summaries 0) in
    let* creation_time := lift (subscript ops_item "CreatedTime") in
    ret (final_time, source_reference, creation_time)
  else ret (final_time, source_reference, VNone).

(** The handler after [get_pipeline] has answered. [creation_time] and
    [final_time] are assigned [None] before the test, so both are always
    in [locals()] and the two [locals()] guards always pass. *)
Definition after_pipeline_details (event pipeline_name state repository_name
                                     branch_name commit_message : value) : M value :=
  let* locals :=
    if eq_env branch_name (default_branch cfg) && eq_str state "SUCCEEDED" then
      let* (final_time, source_reference, creation_time) :=
        find_ops_item event commit_message in
      ret (creation_time, final_time, Some source_reference)
    else ret (VNone, VNone, None) in
  let '(creation_time, final_time, source_reference) := locals in
  let* stage_details := get_stage_details pipeline_name in
  let* trunk_based := lift (in_env repository_name (app_repo_list cfg)) in
  let* _ :=
    if trunk_based : bool then
      let* success := lift (deploy_stage_success (app_prod_stage_name cfg) stage_details) in
      if success : bool then
        let* downtime_seconds := lift (calculate_downtime creation_time final_time) in
        if truthy (VFloat downtime_seconds) then
          let* reference := lift (read_local source_reference) in
          send_to_cloudwatch pipeline_name reference downtime_seconds
        else ret tt
      else ret tt
    else
      let* downtime_seconds := lift (calculate_downtime creation_time final_time) in
      let* reference := lift (read_local source_reference) in
      send_to_cloudwatch pipeline_name reference downtime_seconds in
  ret (response 200 "Mean time to restore metric updated successfully").

(** No [try] surrounds the handler: only [PipelineNotFoundException] from
    [get_pipeline] is caught, and answered with status 500. *)
Definition lambda_handler (event : value) : M value :=
  let* detail := lift (subscript event "detail") in
  let* pipeline_name := lift (subscript detail "pipeline") in
  let* state := lift (subscript detail "state") in
  let* trigger := lift (subscript detail "execution-trigger") in
  let* repository_name := lift (subscript trigger "full-repository-name") in
  let* branch_name := lift (subscript trigger "branch-name") in
  let* commit_message := lift (subscript trigger "commit-message") in
  let* fetched :=
    try_except
      (let* pipeline_details :=
         call_ext (CallGetPipeline pipeline_name) (get_pipeline w pipeline_name) in
       ret (Some pipeline_details))
      (fun e =>
         match e with
         | PipelineNotFoundException => ret None
         | _ => raise e
         end) in
  match fetched with
  | None => ret (response 500 "Pipeline not found")
  | Some _ =>
      after_pipeline_details event pipeline_name state repository_name
                             branch_name commit_message
  end.

End Handler.

End MeanTimeToRestore.

(** ** [dora_custom_lead_time_for_change_metric/index.py] *)

Module LeadTimeForChange.

Definition sample (duration_seconds : Q) : MetricSample :=
  mkSample "DORA" "LeadTimeForChange" "Seconds" (VFloat duration_seconds).

(** [timeout = 300  # 5 minutes], a local of [query_athena_for_commits]. *)
Definition timeout : Q := 300.

(** [{"status": "success"}]. *)
Definition success : value := VDict [("status", VStr "success")].

(** [query_status["QueryExecution"]["Status"]["State"]]. *)
Definition query_state (query_status : value) : res value :=
  let? execution := subscript query_status "QueryExecution" in
  let? status := subscript execution "Status" in
  subscript status "State".

(** The first statements of the handler's [try]: the event is logged with
    [json.dumps], then its pipeline name, commit id, repository name and
    time are read. A missing "time" is logged and raised again. *)
Definition read_event (event : value) : res (value * value * value * value) :=
  let? _ := json_dumps event in
  let? detail := subscript event "detail" in
  let? pipeline_name := subscript detail "pipeline" in
  let? trigger := subscript detail "execution-trigger" in
  let? commit_id := subscript trigger "commit-id" in
  let? repository_name := subscript trigger "full-repository-name" in
  let? pipeline_event_time := subscript event "time" in
  Ok (pipeline_name, commit_id, repository_name, pipeline_event_time).

Section Handler.
Variable cfg : Config.
Variable w : World.

Definition parse_value (v : value) : res datetime :=
  match v with
  | VStr s => parse w s
  | _ => Err TypeError
  end.

(** The [try] block that reads the result of a query whose state is
    SUCCEEDED: the value of the first cell of the second row, when the
    row, the cell and a non-empty value are there. *)
Definition fetch_result (execution_id : value) : M value :=
  let* result :=
    call_ext (CallGetQueryResults execution_id) (get_query_results w execution_id) in
  let* result_set := lift (subscript result "ResultSet") in
  let* rows := lift (subscript result_set "Rows") in
  let* tail := lift (slice_from_1 rows) in
  if truthy tail then
    let* row := lift (subscript_int rows 1) in
    let* data_row := lift (subscript row "Data") in
    if truthy data_row then
      let* cell := lift (subscript_int data_row 0) in
      let* text := lift (dict_get cell "VarCharValue") in
      if truthy text then
        let* earliest_commit_time := lift (subscript cell "VarCharValue") in
        ret earliest_commit_time
      else ret VNone
    else ret VNone
  else ret VNone.

(** Every branch of the body of [while True] leaves the loop ([sys.exit]
    or [break]), so the body runs once: one reading of the status, one
    reading of the clock. *)
Definition query_athena_for_commits (commit_id repository_name : value) : M value :=
  let* response :=
    call_ext (CallStartQueryExecution commit_id repository_name)
             (start_query_execution w cfg commit_id repository_name) in
  let* execution_id := lift (subscript response "QueryExecutionId") in
  let* query_status :=
    call_ext (CallGetQueryExecution execution_id) (get_query_execution w execution_id) in
  let* state := lift (query_state query_status) in
  let* _ :=
    if eq_str state "FAILED" then sys_exit 1
    else if negb (Qle_bool (time_at_check w - time_at_start w) timeout) then sys_exit 1
    else if eq_str state "SUCCEEDED" then ret tt
    else (Return tt, [CallSleep 10]) in
  try_except
    (if eq_str state "SUCCEEDED" then fetch_result execution_id else ret VNone)
    (fun _ => ret VNone).

(** Returns the two parsed times, or [None] when a parse raised. *)
Definition calculate_lead_time (earliest_commit_time pipeline_event_time repository_name : value)
  : option (datetime * datetime) :=
  match parse_value pipeline_event_time with
  | Ok pipeline_event_time_new =>
      match parse_value earliest_commit_time with
      | Ok earliest_commit_time_new => Some (pipeline_event_time_new, earliest_commit_time_new)
      | Err _ => None
      end
  | Err _ => None
  end.

(** [pipeline_event_time_new, earliest_commit_time_new = <result>]. *)
Definition unpack_times (r : option (datetime * datetime)) : res (datetime * datetime) :=
  match r with
  | Some tuple => Ok tuple
  | None => Err TypeError
  end.

Definition get_stage_details (pipeline_name : value) : M value :=
  try_except
    (let* response :=
       call_ext (CallGetPipelineState pipeline_name) (get_pipeline_state w pipeline_name) in
     let* present := lift (has_key "stageStates" response) in
     let* stage_details :=
       if present : bool then
         let* stages := lift (subscript response "stageStates") in
         let* stages := lift (iter stages) in
         lift (stage_summaries stages)
       else ret [] in
     ret (VList stage_details))
    (fun _ => ret VNone).

(** [duration_seconds] is a [float] here, never [None]. *)
Definition lead_time_for_change_metric (duration_seconds : Q) : M unit :=
  try_except
    (let* _ :=
       call_ext (CallPutMetricData (sample duration_seconds))
                (put_metric_data w (sample duration_seconds)) in
     ret tt)
    (fun _ => ret tt).

(** [duration = a - b; duration_seconds = duration.total_seconds();
    if duration_seconds: lead_time_for_change_metric(duration_seconds)]. *)
Definition emit_duration (pipeline_event_time_new earliest_commit_time_new : datetime)
  : M unit :=
  let* duration :=
    lift (datetime_sub pipeline_event_time_new (VDatetime earliest_commit_time_new)) in
  let duration_seconds := total_seconds duration in
  if truthy (VFloat duration_seconds)
  then lead_time_for_change_metric duration_seconds
  else ret tt.

(** The body of the handler's [try]. *)
Definition handler_body (event : value) : M unit :=
  let* (pipeline_name, commit_id, repository_name, pipeline_event_time) :=
    lift (read_event event) in
  let* earliest_commit_time := query_athena_for_commits commit_id repository_name in
  let* (pipeline_event_time_new, earliest_commit_time_new) :=
    lift (unpack_times
            (calculate_lead_time earliest_commit_time pipeline_event_time repository_name)) in
  let* stage_details := get_stage_details pipeline_name in
  let* trunk_based := lift (in_env repository_name (app_repo_list cfg)) in
  if trunk_based : bool then
    let* success := lift (deploy_stage_success (app_prod_stage_name cfg) stage_details) in
    if success : bool
    then emit_duration pipeline_event_time_new earliest_commit_time_new
    else ret tt
  else emit_duration pipeline_event_time_new earliest_commit_time_new.

(** Both [except] clauses log the event with [json.dumps(event, indent=2)]
    and fall through to the final [return]. *)
Definition lambda_handler (event : value) : M value :=
  let* _ :=
    try_except (handler_body event)
               (fun e =>
                  match e with
                  | KeyError => let* _ := lift (json_dumps event) in ret tt
                  | _ => let* _ := lift (json_dumps event) in ret tt
                  end) in
  ret success.

End Handler.

End LeadTimeForChange.

(** ** [kinesis_data_transformation_lambda/index.py] *)

Module KinesisDataTransformation.

(** [except (ValueError, TypeError)]. *)
Definition caught (e : exn) : bool :=
  match e with
  | ValueError | TypeError => true
  | _ => false
  end.

(** [{"recordId": record["recordId"], "result": result, "data": record["data"]}]. *)
Definition output_record (record : value) (result : string) : res value :=
  let? record_id := subscript record "recordId" in
  let? data := subscript record "data" in
  Ok (VDict [("recordId", record_id); ("result", VStr result); ("data", data)]).

Section Handler.

(** The library calls of the [try]:
    [json.loads(base64.b64decode(data).decode('utf-8'))]. *)
Variable decode : value -> res value.

(** The body of the loop. Only [ValueError] and [TypeError] are caught; the
    [except] clause builds its record outside any [try]. *)
Definition transform (record : value) : res value :=
  match (let? data := subscript record "data" in
         let? _ := decode data in
         output_record record "Ok") with
  | Ok output => Ok output
  | Err e => if caught e then output_record record "ProcessingFailed" else Err e
  end.

(** [for record in event["records"]: ... output.append(output_record)]. *)
Fixpoint transform_all (records : list value) : res (list value) :=
  match records with
  | [] => Ok []
  | record :: rest =>
      let? output_record := transform record in
      let? output := transform_all rest in
      Ok (output_record :: output)
  end.

Definition lambda_handler (event : value) : res value :=
  let? records := subscript event "records" in
  let? records := iter records in
  let? output := transform_all records in
  Ok (VDict [("records", VList output)]).

End Handler.

End KinesisDataTransformation.

(** ** [github_signature_verification_lambda/index.py] *)

(** [s.split(sep)] for a separator of one character. *)
Fixpoint split_on (sep : ascii) (s : string) : list string :=
  match s with
  | EmptyString => [EmptyString]
  | String c s' =>
      if Ascii.eqb c sep then EmptyString :: split_on sep s'
      else match split_on sep s' with
           | h :: r => String c h :: r
           | [] => [String c EmptyString]
           end
  end.

(** [d[k] = v] on the bindings of a dict: the binding of [k] is replaced
    where it stands, or added at the end. *)
Fixpoint assoc_set (k : string) (v : value) (d : list (string * value))
  : list (string * value) :=
  match d with
  | [] => [(k, v)]
  | (k', v') :: d' =>
      if String.eqb k k' then (k', v) :: d' else (k', v') :: assoc_set k v d'
  end.

(** [target[k] = v]. *)
Definition set_item (target : value) (k : string) (v : value) : res value :=
  match target with
  | VDict d => Ok (VDict (assoc_set k v d))
  | _ => Err TypeError
  end.

Definition is_ascii (s : string) : bool :=
  forallb (fun c => match c with Ascii _ _ _ _ _ _ _ b7 => negb b7 end) (list_ascii_of_string s).

(** [hmac.compare_digest(a, b)] for two [str]: it refuses a [str] with a
    character outside ASCII. *)
Definition compare_digest (a b : string) : res bool :=
  if is_ascii a && is_ascii b then Ok (String.eqb a b) else Err TypeError.

Module GithubSignatureVerification.

(** What [urlparse] returns, as far as the handler reads it. *)
Record ParseResult : Type := mkParseResult {
  scheme : string;
  netloc : string;
  path : string
}.

(** The collaborators of the handler and the library functions it relies
    on. [get_secret_value] is the Secrets Manager call with the creation of
    its client; [loads] is [json.loads]; [dumps] is the text [json.dumps]
    gives a serializable value; [hexdigest key msg] is
    [hmac.new(key.encode('utf-8'), msg.encode('utf-8'), hashlib.sha256).hexdigest()];
    [str_of] is [str(v)], as an f-string formats a value; [connection] is
    the constructor [http.client.HTTPSConnection(netloc, timeout=10)],
    which opens nothing yet and raises on a [netloc] it cannot read (a port
    that is not a number); [https_post] is the exchange on that connection:
    [conn.request("POST", path, body, headers)], [conn.getresponse()] and
    the reading of the response, its status, its headers and its body. *)
Record Services : Type := mkServices {
  get_secret_value : res value;
  loads : value -> res value;
  dumps : value -> string;
  hexdigest : string -> string -> string;
  str_of : value -> string;
  urlparse : string -> res ParseResult;
  connection : string -> res unit;
  https_post : string -> string -> string -> value -> res (Z * value * string)
}.

(** The calls to the outside, in order. [Post] is the call of
    [conn.request]: it is recorded when the call is made, whatever the
    exchange then gives. *)
Inductive request : Type :=
| GetSecretValue
| Post (netloc path body : string) (headers : value).

(** [v.encode('utf-8')]: only a [str] has the method. *)
Definition encode (v : value) : res string :=
  match v with
  | VStr s => Ok s
  | _ => Err AttributeError
  end.

(** [signature_header.split('=')[1]]. *)
Definition signature_value (signature_header : value) : res string :=
  match signature_header with
  | VStr s =>
      match nth_error (split_on "=" s) 1 with
      | Some part => Ok part
      | None => Err IndexError
      end
  | _ => Err AttributeError
  end.

Section Handler.
Variable srv : Services.

(** [get_secret]: a [ClientError] is logged and raised again. *)
Definition get_secret : res value :=
  let? get_secret_value_response := get_secret_value srv in
  let? secret := subscript get_secret_value_response "SecretString" in
  let? document := loads srv secret in
  dict_get document "github_webhook_secret".

Definition verify_signature (secret body : value) (signature_header : string) : res bool :=
  let? key := encode secret in
  let? msg := encode body in
  compare_digest (hexdigest srv key msg) signature_header.

(** [validate_url]: the scheme must be "http" or "https". *)
Definition validate_url (url : string) : res ParseResult :=
  let? parsed_url := urlparse srv url in
  if negb (in_list (scheme parsed_url) ["http"; "https"]) then Err ValueError
  else Ok parsed_url.

(** Where the handler stands before the last [try]: it has answered, or it
    is about to forward. *)
Inductive decision : Type :=
| Answer (answer : value)
| Forward (parsed_url : ParseResult) (body : string) (headers : value).

(** The handler between the fetch of the secret and the forwarding. The
    text [body] is [json.dumps(event.get('body'))], and [json.loads(body)]
    gives the value of the event's body back. *)
Definition check (github_secret event : value) : res decision :=
  let? headers := dict_get event "headers" in
  let? signature_header := dict_get headers "X-Hub-Signature-256" in
  if negb (truthy signature_header) then
    Ok (Answer (response 403 "Forbidden: Missing signature header"))
  else
    let? signature := signature_value signature_header in
    let? payload := dict_get event "body" in
    let? _ := json_dumps payload in
    let? valid_signature := verify_signature github_secret payload signature in
    if negb valid_signature then
      Ok (Answer (response 403 "Forbidden: Invalid signature"))
    else
      let? request_context := subscript event "requestContext" in
      let? domain_name := subscript request_context "domainName" in
      let? stage := subscript request_context "stage" in
      let forward_url := "https://" ++ str_of srv domain_name ++ "/" ++ str_of srv stage in
      match validate_url forward_url with
      | Ok parsed_url => Ok (Forward parsed_url (dumps srv payload) headers)
      | Err ValueError => Ok (Answer (response 400 "Bad Request: Invalid URL"))
      | Err e => Err e
      end.

(** The last [try]: every exception gives the status-500 answer. The
    connection object is built first, then the headers are completed, then
    the request is made: when the constructor or the assignment raises, no
    request is made. *)
Definition forward (parsed_url : ParseResult) (body : string) (headers : value)
  : value * list request :=
  match (let? _ := connection srv (netloc parsed_url) in
         set_item headers "Content-Type" (VStr "application/json")) with
  | Ok headers' =>
      let target := path parsed_url ++ "/firehose" in
      (match https_post srv (netloc parsed_url) target body headers' with
       | Ok (status, response_headers, response_body) =>
           VDict [("statusCode", VInt status); ("headers", response_headers);
                  ("body", VStr response_body)]
       | Err _ => response 500 "Internal Server Error: Failed to forward request"
       end,
       [Post (netloc parsed_url) target body headers'])
  | Err _ => (response 500 "Internal Server Error: Failed to forward request", [])
  end.

Definition lambda_handler (event : value) : res value * list request :=
  match get_secret with
  | Err _ => (Ok (response 500 "Internal Server Error: Secret not fetched"), [GetSecretValue])
  | Ok github_secret =>
      match check github_secret event with
      | Err e => (Err e, [GetSecretValue])
      | Ok (Answer answer) => (Ok answer, [GetSecretValue])
      | Ok (Forward parsed_url body headers) =>
          let (answer, requests) := forward parsed_url body headers in
          (Ok answer, GetSecretValue :: requests)
      end
  end.

End Handler.

End GithubSignatureVerification.

(** ** Timestamps of the events and tests *)

(** [dateutil] is a dependency, not code of the repository: the theorems take
    its parser from the [World]. For the concrete timestamps of the tests,
    [iso8601] reads the one shape they use, [YYYY-MM-DDTHH:MM:SS] with an
    optional [Z]: aware (UTC) with the [Z], naive without. *)

Definition digit (c : ascii) : option Z :=
  let n := Z.of_nat (nat_of_ascii c) in
  if (48 <=? n) && (n <=? 57) then Some (n - 48) else None.

Fixpoint digits (acc : Z) (s : string) : option Z :=
  match s with
  | EmptyString => Some acc
  | String c s' =>
      match digit c with
      | Some d => digits (10 * acc + d) s'
      | None => None
      end
  end.

(** The [len] digits of [s] from position [start]. *)
Definition field (s : string) (start len : nat) : option Z :=
  let f := substring start len s in
  if (String.length f =? len)%nat then digits 0 f else None.

Definition char_at (s : string) (pos : nat) (c : ascii) : bool :=
  match String.get pos s with
  | Some c' => Ascii.eqb c c'
  | None => false
  end.

(** Days from 1970-01-01 to the given date of the proleptic Gregorian
    calendar. *)
Definition days_from_civil (y m d : Z) : Z :=
  let y' := if m <=? 2 then y - 1 else y in
  let era := y' / 400 in
  let yoe := y' - era * 400 in
  let mp := (m + 9) mod 12 in
  let doy := (153 * mp + 2) / 5 + d - 1 in
  let doe := yoe * 365 + yoe / 4 - yoe / 100 + doy in
  era * 146097 + doe - 719468.

Definition iso8601 (s : string) : res datetime :=
  match field s 0 4, field s 5 2, field s 8 2, field s 11 2, field s 14 2, field s 17 2 with
  | Some y, Some mo, Some d, Some h, Some mi, Some sec =>
      if char_at s 4 "-" && char_at s 7 "-" && char_at s 10 "T"
         && char_at s 13 ":" && char_at s 16 ":"
         && (1 <=? mo) && (mo <=? 12) && (1 <=? d) && (d <=? 31)
         && (h <=? 23) && (mi <=? 59) && (sec <=? 59)
      then
        let us := (days_from_civil y mo d * 86400 + h * 3600 + mi * 60 + sec) * 1000000 in
        match substring 19 (String.length s - 19) s with
        | EmptyString => Ok (Naive us)
        | String c EmptyString => if Ascii.eqb c "Z" then Ok (Aware us) else Err ValueError
        | _ => Err ValueError
        end
      else Err ValueError
  | _, _, _, _, _, _ => Err ValueError
  end.

(** ** Scenarios of the unit tests *)

Module Scenario.

(** The configuration of the tests: [constants.py], with the repository
    names joined by commas as the tests put them in the environment. *)
Definition cfg : Config :=
  mkConfig (Some "main") (Some "DeployPROD")
           (Some "repo-app-sample-1,amazon/github-dora,app1")
           (Some "s3://example-bucket") (Some "example_database") (Some "example_table").

(** A world in which every service raises and the clock stands still. *)
Definition silent : World :=
  mkWorld (fun _ => Err ClientError) (fun _ => Err ClientError) (fun _ => Err ClientError)
          (fun _ _ _ => Err ClientError) (fun _ => Err ClientError) (fun _ => Err ClientError)
          (fun _ => Err ClientError) 0 0 iso8601.

(** [get_pipeline]'s answer for a pipeline whose Source stage reads [branch]
    of [repository]. *)
Definition pipeline_details (branch repository : string) : value :=
  VDict [("pipeline", VDict [("stages", VList [
    VDict [("name", VStr "Source");
           ("actions", VList [
              VDict [("actionTypeId", VDict [("category", VStr "Source")]);
                     ("configuration", VDict [("BranchName", VStr branch);
                                              ("RepositoryName", VStr repository)])]])]])])].

(** [get_pipeline_state]'s answer with one stage. *)
Definition pipeline_state (stage status : string) : value :=
  VDict [("stageStates", VList [
    VDict [("stageName", VStr stage);
           ("latestExecution", VDict [("status", VStr status)])]])].

(** A pipeline event as EventBridge delivers it. *)
Definition pipeline_event (state repository branch message : string) : value :=
  VDict [("detail", VDict [("state", VStr state);
                           ("pipeline", VStr "github-dora-test");
                           ("execution-trigger",
                             VDict [("commit-id", VStr "abc123");
                                    ("full-repository-name", VStr repository);
                                    ("branch-name", VStr branch);
                                    ("commit-message", VStr message)])]);
         ("time", VStr "2023-01-01T01:00:00Z")].

(** [get_pipeline]'s answer for a pipeline that has no stage named "Source". *)
Definition pipeline_without_source : value :=
  VDict [("pipeline", VDict [("stages", VList [
    VDict [("name", VStr "Build"); ("actions", VList [])]])])].

(** CodePipeline answers [details] and one stage status; CloudWatch accepts
    every sample. *)
Definition with_details (details : value) (stage status : string) : World :=
  mkWorld (fun _ => Ok details)
          (fun _ => Ok (pipeline_state stage status))
          (fun _ => Err ClientError)
          (fun _ _ _ => Err ClientError) (fun _ => Err ClientError) (fun _ => Err ClientError)
          (fun _ => Ok (VDict [])) 0 0 iso8601.

(** Only [get_pipeline_state] answers, with [answer]. *)
Definition with_state (answer : value) : World :=
  mkWorld (fun _ => Err ClientError) (fun _ => Ok answer) (fun _ => Err ClientError)
          (fun _ _ _ => Err ClientError) (fun _ => Err ClientError) (fun _ => Err ClientError)
          (fun _ => Err ClientError) 0 0 iso8601.

(** CodePipeline knows the pipeline and its source. *)
Definition with_pipeline (branch repository stage status : string) : World :=
  with_details (pipeline_details branch repository) stage status.

(** As [with_pipeline], and OpsCenter answers [summaries]. *)
Definition with_ops_items (branch repository stage status : string) (summaries : list value)
  : World :=
  mkWorld (fun _ => Ok (pipeline_details branch repository))
          (fun _ => Ok (pipeline_state stage status))
          (fun _ => Ok (VDict [("OpsItemSummaries", VList summaries)]))
          (fun _ _ _ => Err ClientError) (fun _ => Err ClientError) (fun _ => Err ClientError)
          (fun _ => Ok (VDict [])) 0 0 iso8601.




(** Athena's answers for a query in state [state] whose result, when read,
    has a header row and one data row holding [earliest]. *)
Definition query_results (earliest : string) : value :=
  VDict [("ResultSet", VDict [("Rows", VList [
    VDict [("Data", VList [VDict [("VarCharValue", VStr "earliest_commit_time")]])];
    VDict [("Data", VList [VDict [("VarCharValue", VStr earliest)]])]])])].

Definition query_status (state : string) : value :=
  VDict [("QueryExecution", VDict [("Status", VDict [("State", VStr state)])])].

(** CodePipeline does not know the pipeline; Athena answers; the poll reads
    the clock [elapsed] seconds after the start. *)
Definition with_athena (state earliest : string) (elapsed : Q) : World :=
  mkWorld (fun _ => Err PipelineNotFoundException)
          (fun _ => Err PipelineNotFoundException)
          (fun _ => Err ClientError)
          (fun _ _ _ => Ok (VDict [("QueryExecutionId", VStr "1234-5678-91011")]))
          (fun _ => Ok (query_status state))
          (fun _ => Ok (query_results earliest))
          (fun _ => Ok (VDict [])) 0 elapsed iso8601.

End Scenario.

(** A webhook delivery and the services around it, for the examples. The
    digest is a stand-in: it answers the same text for every key and
    message. *)
Module Webhook.

Definition services : GithubSignatureVerification.Services :=
  GithubSignatureVerification.mkServices
    (Ok (VDict [("SecretString", VStr "{...}")]))
    (fun _ => Ok (VDict [("github_webhook_secret", VStr "s3cr3t")]))
    (fun _ => "payload")
    (fun _ _ => "0f3a")
    (fun v => match v with VStr s => s | _ => "None" end)
    (fun _ => Ok (GithubSignatureVerification.mkParseResult
                    "https" "abc123.execute-api.us-east-1.amazonaws.com" "/prod"))
    (fun _ => Ok tt)
    (fun _ _ _ _ => Ok (200, VDict [], "ok")).

Definition delivery (signature_header : string) : value :=
  VDict [("headers", VDict [("X-Hub-Signature-256", VStr signature_header)]);
         ("body", VStr "{}");
         ("requestContext",
          VDict [("domainName", VStr "abc123.execute-api.us-east-1.amazonaws.com");
                 ("stage", VStr "prod")])].

End Webhook.

(** ** Vocabulary of the properties *)

(** A computation that sends nothing to CloudWatch. *)
Definition quiet {A} (m : M A) : Prop := sinks (snd m) = [].

(** A computation that sends at most one sample. *)
Definition at_most_one {A} (m : M A) : Prop := (length (sinks (snd m)) <= 1)%nat.

(** A computation that does not leave through [sys.exit]. *)
Definition no_exit {A} (m : M A) : Prop := forall code, fst m <> Exit code.

(** An entry of [get_stage_details]: [{"name": n, "status": s}]. *)
Definition is_summary (v : value) : Prop :=
  exists n s, v = VDict [("name", n); ("status", s)].



(** [s] has no character [c]. *)
Fixpoint lacks (c : ascii) (s : string) : bool :=
  match s with
  | EmptyString => true
  | String a s' => negb (Ascii.eqb a c) && lacks c s'
  end.

(** The world [w] with another CloudWatch. *)
Definition with_put (w : World) (put : MetricSample -> res value) : World :=
  mkWorld (get_pipeline w) (get_pipeline_state w) (describe_ops_items w)
          (start_query_execution w) (get_query_execution w) (get_query_results w)
          put (time_at_start w) (time_at_check w) (parse w).

(** A stage whose name is not "Source", and an action whose category is not
    "Source": what [extract_branch_from_pipeline_details] passes over. *)
Definition other_stage (stage : value) : Prop :=
  exists name, subscript stage "name" = Ok name /\ eq_str name "Source" = false.

Definition other_action (action : value) : Prop :=
  exists type_id category,
    subscript action "actionTypeId" = Ok type_id
    /\ subscript type_id "category" = Ok category
    /\ eq_str category "Source" = false.

(** [sep.join(parts)]. *)
Fixpoint join (sep : string) (parts : list string) : string :=
  match parts with
  | [] => EmptyString
  | [p] => p
  | p :: rest => p ++ sep ++ join sep rest
  end.

(** The five reads at the top of the mean-time-to-restore handler, in the
    handler's order: pipeline name, state, repository name, branch name and
    commit message. *)
Definition restore_event_fields (event : value)
  : res (value * value * value * value * value) :=
  let? detail := subscript event "detail" in
  let? pipeline_name := subscript detail "pipeline" in
  let? state := subscript detail "state" in
  let? trigger := subscript detail "execution-trigger" in
  let? repository_name := subscript trigger "full-repository-name" in
  let? branch_name := subscript trigger "branch-name" in
  let? commit_message := subscript trigger "commit-message" in
  Ok (pipeline_name, state, repository_name, branch_name, commit_message).

(** The handler's test for an event that restores service:
    [branch_name == default_branch and state == "SUCCEEDED"]. *)
Definition restores (cfg : Config) (branch_name state : value) : bool :=
  eq_env branch_name (default_branch cfg) && eq_str state "SUCCEEDED".




(** The first cell of the first data row (the row after the header) of the
    results Athena returns for [execution_id] holds [v]. *)
Definition first_data_cell (w : World) (execution_id v : value) : Prop :=
  exists result result_set rows row data cell,
    get_query_results w execution_id = Ok result
    /\ subscript result "ResultSet" = Ok result_set
    /\ subscript result_set "Rows" = Ok rows
    /\ subscript_int rows 1 = Ok row
    /\ subscript row "Data" = Ok data
    /\ subscript_int data 0 = Ok cell
    /\ subscript cell "VarCharValue" = Ok v.

(** The answer of the transformation for one record whose data decodes or
    not. *)
Definition transformed (decode : value -> res value) (record output : value) : Prop :=
  exists record_id data,
    subscript record "recordId" = Ok record_id
    /\ subscript record "data" = Ok data
    /\ output = VDict [("recordId", record_id);
                       ("result", VStr (match decode data with
                                        | Ok _ => "Ok"
                                        | Err _ => "ProcessingFailed"
                                        end));
                       ("data", data)].

(** A record the transformation can answer: it has its two fields, and
    decoding its data returns or raises what the handler catches. *)
Definition answerable (decode : value -> res value) (record : value) : Prop :=
  exists record_id data,
    subscript record "recordId" = Ok record_id
    /\ subscript record "data" = Ok data
    /\ forall e, decode data = Err e -> KinesisDataTransformation.caught e = true.

(** The event carries a signature that matches its body under [secret]:
    the part of the "X-Hub-Signature-256" header after its first "=" (and
    before the next) is the hex digest of the body. *)
Definition signed_with (srv : GithubSignatureVerification.Services)
           (secret : string) (event : value) : Prop :=
  exists headers signature_header signature body,
    dict_get event "headers" = Ok headers
    /\ dict_get headers "X-Hub-Signature-256" = Ok (VStr signature_header)
    /\ nth_error (split_on "=" signature_header) 1 = Some signature
    /\ dict_get event "body" = Ok (VStr body)
    /\ signature = GithubSignatureVerification.hexdigest srv secret body.





(** * Properties *)

(** ** The monad: outcomes and traces *)

Lemma sinks_app (t t' : list call) : sinks (t ++ t') = (sinks t ++ sinks t')%list.
Proof.
  induction t as [|c t IH]; simpl; [reflexivity|].
  destruct c; simpl; rewrite ?IH; reflexivity.
Qed.

Lemma quiet_ret {A} (a : A) : quiet (ret a).
Proof. reflexivity. Qed.

Lemma quiet_raise {A} (e : exn) : quiet (@raise A e).
Proof. reflexivity. Qed.

Lemma quiet_sys_exit {A} (c : Z) : quiet (@sys_exit A c).
Proof. reflexivity. Qed.

Lemma quiet_lift {A} (r : res A) : quiet (lift r).
Proof. destruct r; reflexivity. Qed.

Lemma quiet_bind {A B} (m : M A) (f : A -> M B) :
  quiet m -> (forall a, quiet (f a)) -> quiet (bind m f).
Proof.
  unfold quiet, bind. destruct m as [[a|e|c] t]; simpl; intros Hm Hf; auto.
  specialize (Hf a). destruct (f a) as [o t']; simpl in *.
  rewrite sinks_app, Hm, Hf. reflexivity.
Qed.

Lemma quiet_try_except {A} (m : M A) (h : exn -> M A) :
  quiet m -> (forall e, quiet (h e)) -> quiet (try_except m h).
Proof.
  unfold quiet, try_except. destruct m as [[a|e|c] t]; simpl; intros Hm Hh; auto.
  specialize (Hh e). destruct (h e) as [o t']; simpl in *.
  rewrite sinks_app, Hm, Hh. reflexivity.
Qed.

Lemma quiet_at_most_one {A} (m : M A) : quiet m -> at_most_one m.
Proof. unfold quiet, at_most_one. intros ->. simpl. lia. Qed.

Lemma at_most_one_bind_l {A B} (m : M A) (f : A -> M B) :
  quiet m -> (forall a, at_most_one (f a)) -> at_most_one (bind m f).
Proof.
  unfold quiet, at_most_one, bind. destruct m as [[a|e|c] t]; simpl; intros Hm Hf;
    try (rewrite Hm; simpl; lia).
  specialize (Hf a). destruct (f a) as [o t']; simpl in *.
  rewrite sinks_app, Hm. exact Hf.
Qed.

Lemma at_most_one_bind_r {A B} (m : M A) (f : A -> M B) :
  at_most_one m -> (forall a, quiet (f a)) -> at_most_one (bind m f).
Proof.
  unfold quiet, at_most_one, bind. destruct m as [[a|e|c] t]; simpl; intros Hm Hf; auto.
  specialize (Hf a). destruct (f a) as [o t']; simpl in *.
  rewrite sinks_app, Hf, app_nil_r. exact Hm.
Qed.

Lemma at_most_one_try_except {A} (m : M A) (h : exn -> M A) :
  at_most_one m -> (forall e, quiet (h e)) -> at_most_one (try_except m h).
Proof.
  unfold quiet, at_most_one, try_except. destruct m as [[a|e|c] t]; simpl; intros Hm Hh; auto.
  specialize (Hh e). destruct (h e) as [o t']; simpl in *.
  rewrite sinks_app, Hh, app_nil_r. exact Hm.
Qed.

Lemma quiet_call_ext {A} (c : call) (r : res A) :
  sinks [c] = [] -> quiet (call_ext c r).
Proof. unfold quiet, call_ext. destruct r; simpl; auto. Qed.

Lemma at_most_one_call_ext {A} (c : call) (r : res A) : at_most_one (call_ext c r).
Proof. unfold at_most_one, call_ext. destruct r, c; simpl; lia. Qed.

Lemma no_exit_ret {A} (a : A) : no_exit (ret a).
Proof. intros c; discriminate. Qed.

Lemma no_exit_raise {A} (e : exn) : no_exit (@raise A e).
Proof. intros c; discriminate. Qed.

Lemma no_exit_lift {A} (r : res A) : no_exit (lift r).
Proof. destruct r; intros c; discriminate. Qed.

Lemma no_exit_call_ext {A} (c : call) (r : res A) : no_exit (call_ext c r).
Proof. destruct r; intros k; discriminate. Qed.

Lemma no_exit_bind {A B} (m : M A) (f : A -> M B) :
  no_exit m -> (forall a, no_exit (f a)) -> no_exit (bind m f).
Proof.
  unfold no_exit, bind. destruct m as [[a|e|c] t]; simpl; intros Hm Hf k.
  - specialize (Hf a k). destruct (f a) as [o t']; exact Hf.
  - discriminate.
  - exfalso. exact (Hm c eq_refl).
Qed.

Lemma no_exit_try_except {A} (m : M A) (h : exn -> M A) :
  no_exit m -> (forall e, no_exit (h e)) -> no_exit (try_except m h).
Proof.
  unfold no_exit, try_except. destruct m as [[a|e|c] t]; simpl; intros Hm Hh k.
  - discriminate.
  - specialize (Hh e k). destruct (h e) as [o t']; exact Hh.
  - exact (Hm k).
Qed.

(** One step through a computation, for each of the three properties. A
    helper of a handler is covered by a hypothesis of the context. *)
Ltac quiet_step :=
  lazymatch goal with
  | |- quiet (bind _ _) => apply quiet_bind; [|intros]
  | |- quiet (try_except _ _) => apply quiet_try_except; [|intros]
  | |- quiet (call_ext _ _) => apply quiet_call_ext; reflexivity
  | |- quiet (if ?b then _ else _) => destruct b
  | |- quiet (match ?x with _ => _ end) => destruct x
  | |- quiet _ =>
      solve [ apply quiet_ret | apply quiet_raise | apply quiet_sys_exit
            | apply quiet_lift | reflexivity | auto ]
  end.

Ltac quiet_tac := repeat quiet_step.

Ltac no_exit_step :=
  lazymatch goal with
  | |- no_exit (bind _ _) => apply no_exit_bind; [|intros]
  | |- no_exit (try_except _ _) => apply no_exit_try_except; [|intros]
  | |- no_exit (if ?b then _ else _) => destruct b
  | |- no_exit (match ?x with _ => _ end) => destruct x
  | |- no_exit _ =>
      solve [ apply no_exit_ret | apply no_exit_raise | apply no_exit_lift
            | apply no_exit_call_ext | auto ]
  end.

Ltac no_exit_tac := repeat no_exit_step.

Ltac at_most_one_step :=
  lazymatch goal with
  | |- at_most_one (bind _ _) =>
      first [ apply at_most_one_bind_l; [solve [quiet_tac]|intros]
            | apply at_most_one_bind_r; [|intros; solve [quiet_tac]] ]
  | |- at_most_one (try_except _ _) => apply at_most_one_try_except; [|intros; solve [quiet_tac]]
  | |- at_most_one (if ?b then _ else _) => destruct b
  | |- at_most_one (match ?x with _ => _ end) => destruct x
  | |- at_most_one _ =>
      solve [ apply at_most_one_call_ext | apply quiet_at_most_one; quiet_tac ]
  end.

Ltac at_most_one_tac := repeat at_most_one_step.

(** ** Helpers of the handlers *)

Section Helpers.
Variable cfg : Config.
Variable w : World.

Lemma df_get_stage_details_quiet name : quiet (DeploymentFrequency.get_stage_details w name).
Proof. unfold DeploymentFrequency.get_stage_details. quiet_tac. Qed.

Lemma lt_get_stage_details_quiet name : quiet (LeadTimeForChange.get_stage_details w name).
Proof. unfold LeadTimeForChange.get_stage_details. quiet_tac. Qed.

Lemma mttr_get_stage_details_quiet name : quiet (MeanTimeToRestore.get_stage_details w name).
Proof. unfold MeanTimeToRestore.get_stage_details. quiet_tac. Qed.

Lemma query_athena_for_commits_quiet c r :
  quiet (LeadTimeForChange.query_athena_for_commits cfg w c r).
Proof.
  unfold LeadTimeForChange.query_athena_for_commits, LeadTimeForChange.fetch_result.
  quiet_tac.
Qed.

Lemma find_ops_item_quiet event message :
  quiet (MeanTimeToRestore.find_ops_item w event message).
Proof. unfold MeanTimeToRestore.find_ops_item. quiet_tac. Qed.

End Helpers.

Section AtMostOne.
Variable cfg : Config.
Variable w : World.

Lemma df_at_most_one event : at_most_one (DeploymentFrequency.lambda_handler cfg w event).
Proof.
  pose proof (df_get_stage_details_quiet w) as Hstages.
  unfold DeploymentFrequency.lambda_handler, DeploymentFrequency.deployment_frequency_metric.
  at_most_one_tac.
Qed.

Lemma cfr_at_most_one event : at_most_one (ChangeFailureRate.lambda_handler w event).
Proof.
  unfold ChangeFailureRate.lambda_handler, ChangeFailureRate.failed_deployments_metric.
  at_most_one_tac.
Qed.

Lemma lt_at_most_one event : at_most_one (LeadTimeForChange.lambda_handler cfg w event).
Proof.
  pose proof (lt_get_stage_details_quiet w) as Hstages.
  pose proof (query_athena_for_commits_quiet cfg w) as Hquery.
  unfold LeadTimeForChange.lambda_handler, LeadTimeForChange.handler_body,
    LeadTimeForChange.emit_duration, LeadTimeForChange.lead_time_for_change_metric.
  at_most_one_tac.
Qed.

Lemma mttr_at_most_one event : at_most_one (MeanTimeToRestore.lambda_handler cfg w event).
Proof.
  pose proof (mttr_get_stage_details_quiet w) as Hstages.
  pose proof (find_ops_item_quiet w) as Hfind.
  unfold MeanTimeToRestore.lambda_handler, MeanTimeToRestore.after_pipeline_details,
    MeanTimeToRestore.send_to_cloudwatch.
  at_most_one_tac.
Qed.

End AtMostOne.

(** C9. In every invocation of each of the four handlers, whatever the event
    and whatever the collaborators answer, at most one sample is sent to the
    metrics sink. *)
Theorem at_most_one_sample_per_invocation (cfg : Config) (w : World) (event : value) :
  (length (sinks (snd (DeploymentFrequency.lambda_handler cfg w event))) <= 1)%nat
  /\ (length (sinks (snd (LeadTimeForChange.lambda_handler cfg w event))) <= 1)%nat
  /\ (length (sinks (snd (MeanTimeToRestore.lambda_handler cfg w event))) <= 1)%nat
  /\ (length (sinks (snd (ChangeFailureRate.lambda_handler w event))) <= 1)%nat.
Proof.
  repeat split.
  - apply df_at_most_one.
  - apply lt_at_most_one.
  - apply mttr_at_most_one.
  - apply cfr_at_most_one.
Qed.

(** ** The lead-time handler always answers *)

Section LeadTimeOutcome.
Variable cfg : Config.
Variable w : World.

Lemma lt_get_stage_details_no_exit name : no_exit (LeadTimeForChange.get_stage_details w name).
Proof. unfold LeadTimeForChange.get_stage_details. no_exit_tac. Qed.

Lemma lead_time_for_change_metric_no_exit d :
  no_exit (LeadTimeForChange.lead_time_for_change_metric w d).
Proof. unfold LeadTimeForChange.lead_time_for_change_metric. no_exit_tac. Qed.

Lemma emit_duration_no_exit a b : no_exit (LeadTimeForChange.emit_duration w a b).
Proof.
  unfold LeadTimeForChange.emit_duration. no_exit_tac.
  apply lead_time_for_change_metric_no_exit.
Qed.

(** The body of the [try] leaves through [sys.exit] only if the Athena
    query does. *)
Lemma handler_body_no_exit event :
  (forall c r, no_exit (LeadTimeForChange.query_athena_for_commits cfg w c r)) ->
  no_exit (LeadTimeForChange.handler_body cfg w event).
Proof.
  intros Hq. unfold LeadTimeForChange.handler_body.
  no_exit_tac;
    first [ apply Hq | apply lt_get_stage_details_no_exit | apply emit_duration_no_exit ].
Qed.

(** A handler body that ends without [sys.exit] gives the success answer,
    for an event that [json.dumps] accepts. *)
Lemma lambda_handler_success event :
  json_serializable event = true ->
  no_exit (LeadTimeForChange.handler_body cfg w event) ->
  fst (LeadTimeForChange.lambda_handler cfg w event) = Return LeadTimeForChange.success.
Proof.
  intros Hjson Hbody. unfold LeadTimeForChange.lambda_handler, json_dumps.
  rewrite Hjson. unfold no_exit in Hbody.
  destruct (LeadTimeForChange.handler_body cfg w event) as [[u|e|c] t]; simpl.
  - reflexivity.
  - destruct e; reflexivity.
  - exfalso. apply (Hbody c). reflexivity.
Qed.

End LeadTimeOutcome.

(** C10. For every event that [json.dumps] accepts (every JSON document,
    malformed or not) and every answer of the pipeline, the stores and the
    sink, the lead-time handler returns [{"status": "success"}], provided the
    Athena query path does not leave through [sys.exit]. *)
Theorem lead_time_handler_always_succeeds (cfg : Config) (w : World) (event : value) :
  json_serializable event = true ->
  (forall commit_id repository_name code,
      fst (LeadTimeForChange.query_athena_for_commits cfg w commit_id repository_name)
      <> Exit code) ->
  fst (LeadTimeForChange.lambda_handler cfg w event) = Return LeadTimeForChange.success.
Proof.
  intros Hjson Hq. apply lambda_handler_success; [exact Hjson|].
  apply handler_body_no_exit. intros c r code. apply Hq.
Qed.

Lemma lead_time_handler_always_succeeds_witness :
  json_serializable (VDict [("detail", VDict [])]) = true
  /\ (forall commit_id repository_name code,
         fst (LeadTimeForChange.query_athena_for_commits
                Scenario.cfg (Scenario.with_athena "SUCCEEDED" "2023-01-01T00:00:00Z" 0)
                commit_id repository_name) <> Exit code)
  /\ fst (LeadTimeForChange.lambda_handler
            Scenario.cfg (Scenario.with_athena "SUCCEEDED" "2023-01-01T00:00:00Z" 0)
            (VDict [("detail", VDict [])]))
     = Return LeadTimeForChange.success.
Proof.
  assert (H : forall commit_id repository_name code,
             fst (LeadTimeForChange.query_athena_for_commits
                    Scenario.cfg (Scenario.with_athena "SUCCEEDED" "2023-01-01T00:00:00Z" 0)
                    commit_id repository_name) <> Exit code)
    by (intros c r code; vm_compute; discriminate).
  split; [reflexivity|]. split; [exact H|].
  apply lead_time_handler_always_succeeds; [reflexivity | exact H].
Defined.

(** ** Stage statuses *)

Lemma eq_str_true v s : eq_str v s = true <-> v = VStr s.
Proof.
  destruct v; simpl; try (split; [discriminate | intros H; discriminate H]).
  rewrite String.eqb_eq. split; [intros ->; reflexivity | intros H; injection H; auto].
Qed.

Lemma eq_env_true v c :
  eq_env v c = true <-> v = match c with Some p => VStr p | None => VNone end.
Proof.
  destruct c as [p|]; simpl; [apply eq_str_true|].
  destruct v; split; intros H; try reflexivity; discriminate H.
Qed.

Lemma stage_summaries_wf stages : forall summaries,
  stage_summaries stages = Ok summaries -> Forall is_summary summaries.
Proof.
  induction stages as [|stage rest IH]; simpl; intros summaries H.
  - injection H as <-. constructor.
  - destruct (subscript stage "stageName") as [n|]; simpl in H; [|discriminate].
    destruct (subscript stage "latestExecution") as [latest|]; simpl in H; [|discriminate].
    destruct (subscript latest "status") as [s|]; simpl in H; [|discriminate].
    destruct (stage_summaries rest) as [tail|]; simpl in H; [|discriminate].
    injection H as <-. constructor; [exists n, s; reflexivity | apply IH; reflexivity].
Qed.


(** What [get_stage_details] returns: [None] when anything raised, else a
    list of well-formed entries; and it makes exactly one call. *)
Lemma df_get_stage_details_shape w name :
  exists v, DeploymentFrequency.get_stage_details w name = (Return v, [CallGetPipelineState name])
            /\ (v = VNone \/ exists l, v = VList l /\ Forall is_summary l).
Proof.
  unfold DeploymentFrequency.get_stage_details.
  destruct (get_pipeline_state w name) as [response|e]; simpl; [|eauto].
  destruct (has_key "stageStates" response) as [[|]|e]; simpl; eauto.
  - destruct (subscript response "stageStates") as [stages|e]; simpl; [|eauto].
    destruct (iter stages) as [l|e]; simpl; [|eauto].
    destruct (stage_summaries l) as [l'|e] eqn:E; simpl; [|eauto].
    eexists; split; [reflexivity|]. right. exists l'. split; [reflexivity|].
    eapply stage_summaries_wf; eassumption.
  - eexists; split; [reflexivity|]. right. exists []. split; [reflexivity|constructor].
Qed.




(** ** Samples along a computation *)

Lemma sinks_bind {A B} (m : M A) (f : A -> M B) :
  sinks (snd (bind m f))
  = (sinks (snd m) ++ match fst m with Return a => sinks (snd (f a)) | _ => [] end)%list.
Proof.
  unfold bind. destruct m as [[a|e|c] t]; simpl; rewrite ?app_nil_r; auto.
  destruct (f a) as [o t']. simpl. apply sinks_app.
Qed.

Lemma sinks_try_except {A} (m : M A) (h : exn -> M A) :
  sinks (snd (try_except m h))
  = (sinks (snd m) ++ match fst m with Raise e => sinks (snd (h e)) | _ => [] end)%list.
Proof.
  unfold try_except. destruct m as [[a|e|c] t]; simpl; rewrite ?app_nil_r; auto.
  destruct (h e) as [o t']. simpl. apply sinks_app.
Qed.

Lemma total_seconds_zero us : Qeq_bool (total_seconds us) 0 = (us =? 0).
Proof.
  unfold total_seconds.
  destruct (us =? 0) eqn:E.
  - apply Z.eqb_eq in E. subst. reflexivity.
  - apply Z.eqb_neq in E. apply not_true_is_false. intros H.
    apply Qeq_bool_iff in H. rewrite Qred_correct in H.
    unfold Qeq in H. simpl in H. lia.
Qed.

(** One step along a chain of binds whose head has just been decided. *)
Ltac lt_step :=
  rewrite sinks_bind; cbn [fst snd lift ret raise sinks app];
  try (intros []).

Section LeadTimeValue.
Variable cfg : Config.
Variable w : World.

Lemma lead_time_for_change_metric_sinks d :
  sinks (snd (LeadTimeForChange.lead_time_for_change_metric w d))
  = [LeadTimeForChange.sample d].
Proof.
  unfold LeadTimeForChange.lead_time_for_change_metric.
  destruct (put_metric_data w (LeadTimeForChange.sample d)); reflexivity.
Qed.

(** The published value is the difference in seconds; a zero difference
    publishes nothing. *)
Lemma emit_duration_sinks a b :
  sinks (snd (LeadTimeForChange.emit_duration w a b))
  = match datetime_sub a (VDatetime b) with
    | Ok us => if us =? 0 then [] else [LeadTimeForChange.sample (total_seconds us)]
    | Err _ => []
    end.
Proof.
  unfold LeadTimeForChange.emit_duration.
  rewrite sinks_bind.
  destruct (datetime_sub a (VDatetime b)) as [us|e]; simpl; [|reflexivity].
  rewrite total_seconds_zero.
  destruct (us =? 0); simpl; [reflexivity|].
  apply lead_time_for_change_metric_sinks.
Qed.

Lemma lt_lambda_handler_sinks event :
  sinks (snd (LeadTimeForChange.lambda_handler cfg w event))
  = sinks (snd (LeadTimeForChange.handler_body cfg w event)).
Proof.
  unfold LeadTimeForChange.lambda_handler.
  rewrite sinks_bind, sinks_try_except.
  assert (Hh : sinks (snd (let* _ := lift (json_dumps event) in ret tt)) = [])
    by (destruct (json_dumps event); reflexivity).
  destruct (LeadTimeForChange.handler_body cfg w event) as [[u|e|c] t]; simpl.
  - rewrite !app_nil_r. reflexivity.
  - destruct e; rewrite Hh, !app_nil_r;
      destruct (let* _ := lift (json_dumps event) in ret tt) as [[?|?|?] ?];
      simpl; rewrite ?app_nil_r; reflexivity.
  - rewrite !app_nil_r. reflexivity.
Qed.

Lemma read_event_time event name commit repo time :
  LeadTimeForChange.read_event event = Ok (name, commit, repo, time) ->
  subscript event "time" = Ok time.
Proof.
  unfold LeadTimeForChange.read_event.
  destruct (json_dumps event); simpl; [|discriminate].
  destruct (subscript event "detail") as [detail|]; simpl; [|discriminate].
  destruct (subscript detail "pipeline"); simpl; [|discriminate].
  destruct (subscript detail "execution-trigger") as [trigger|]; simpl; [|discriminate].
  destruct (subscript trigger "commit-id"); simpl; [|discriminate].
  destruct (subscript trigger "full-repository-name"); simpl; [|discriminate].
  destruct (subscript event "time"); simpl; [|discriminate].
  intros H. injection H as _ _ _ ->. reflexivity.
Qed.

(** Every sample the handler publishes carries the seconds from the
    earliest commit time Athena returned to the event's time, and that
    number is not zero. *)
Lemma lt_handler_body_sinks event s :
  In s (sinks (snd (LeadTimeForChange.handler_body cfg w event))) ->
  exists event_time commit_id repository_name commit_time a b us,
    subscript event "time" = Ok (VStr event_time)
    /\ fst (LeadTimeForChange.query_athena_for_commits cfg w commit_id repository_name)
       = Return (VStr commit_time)
    /\ parse w event_time = Ok a
    /\ parse w commit_time = Ok b
    /\ datetime_sub a (VDatetime b) = Ok us
    /\ us <> 0
    /\ s = LeadTimeForChange.sample (total_seconds us).
Proof.
  unfold LeadTimeForChange.handler_body.
  destruct (LeadTimeForChange.read_event event) as [[[[name commit] repo] time]|] eqn:Hread;
    lt_step.
  apply read_event_time in Hread. rewrite Hread.
  pose proof (query_athena_for_commits_quiet cfg w commit repo) as Hquiet.
  unfold quiet in Hquiet. rewrite sinks_bind, Hquiet.
  destruct (LeadTimeForChange.query_athena_for_commits cfg w commit repo)
    as [[earliest|e|c] t] eqn:Hquery; cbn [fst snd app]; try (intros []).
  unfold LeadTimeForChange.calculate_lead_time.
  destruct time as [| | | |event_time| | |]; cbn [LeadTimeForChange.parse_value];
    try (lt_step; fail).
  destruct (parse w event_time) as [a|] eqn:Ha; [|lt_step; fail].
  destruct earliest as [| | | |commit_time| | |]; cbn [LeadTimeForChange.parse_value];
    try (lt_step; fail).
  destruct (parse w commit_time) as [b|] eqn:Hb; [|lt_step; fail].
  cbn [LeadTimeForChange.unpack_times]. lt_step.
  pose proof (lt_get_stage_details_quiet w name) as Hq2.
  unfold quiet in Hq2. rewrite sinks_bind, Hq2.
  assert (Hemit : In s (sinks (snd (LeadTimeForChange.emit_duration w a b))) ->
                  exists us, datetime_sub a (VDatetime b) = Ok us /\ us <> 0
                             /\ s = LeadTimeForChange.sample (total_seconds us)).
  { rewrite emit_duration_sinks.
    destruct (datetime_sub a (VDatetime b)) as [us|]; [|intros []].
    destruct (us =? 0) eqn:E; [intros []|].
    apply Z.eqb_neq in E. intros [<-|[]]. exists us. auto. }
  assert (Hdone : In s (sinks (snd (LeadTimeForChange.emit_duration w a b))) ->
                  exists event_time0 commit_id repository_name commit_time0 a0 b0 us,
                    Ok (VStr event_time) = Ok (VStr event_time0)
                    /\ fst (LeadTimeForChange.query_athena_for_commits
                              cfg w commit_id repository_name)
                       = Return (VStr commit_time0)
                    /\ parse w event_time0 = Ok a0
                    /\ parse w commit_time0 = Ok b0
                    /\ datetime_sub a0 (VDatetime b0) = Ok us
                    /\ us <> 0
                    /\ s = LeadTimeForChange.sample (total_seconds us)).
  { intros H. destruct (Hemit H) as (us & H1 & H2 & H3).
    exists event_time, commit, repo, commit_time, a, b, us.
    rewrite Hquery. repeat split; auto. }
  destruct (LeadTimeForChange.get_stage_details w name) as [[sd|e|c] t2];
    cbn [fst snd app]; try (intros []).
  destruct (in_env repo (app_repo_list cfg)) as [[|]|]; lt_step; [|exact Hdone].
  destruct (deploy_stage_success (app_prod_stage_name cfg) sd) as [[|]|]; lt_step.
  exact Hdone.
Qed.

End LeadTimeValue.

(** C6. The lead-time value is the time of the event minus the earliest
    commit time, in seconds: every sample the handler publishes carries that
    difference, and the difference is not zero; a zero difference publishes
    nothing. Earliest commit 2023-01-01T00:00:00Z and event
    2023-01-01T01:00:00Z give exactly 3600; equal times give no sample. *)
Theorem lead_time_is_elapsed_seconds :
  (forall cfg w event s,
      In s (sinks (snd (LeadTimeForChange.lambda_handler cfg w event))) ->
      exists event_time commit_id repository_name commit_time a b us,
        subscript event "time" = Ok (VStr event_time)
        /\ fst (LeadTimeForChange.query_athena_for_commits cfg w commit_id repository_name)
           = Return (VStr commit_time)
        /\ parse w event_time = Ok a
        /\ parse w commit_time = Ok b
        /\ datetime_sub a (VDatetime b) = Ok us
        /\ us <> 0
        /\ s = LeadTimeForChange.sample (total_seconds us))
  /\ (forall w a b us,
         datetime_sub a (VDatetime b) = Ok us ->
         sinks (snd (LeadTimeForChange.emit_duration w a b))
         = if us =? 0 then [] else [LeadTimeForChange.sample (total_seconds us)])
  /\ sinks (snd (LeadTimeForChange.lambda_handler
                   Scenario.cfg (Scenario.with_athena "SUCCEEDED" "2023-01-01T00:00:00Z" 0)
                   (Scenario.pipeline_event "SUCCEEDED" "repo1" "main" "Update")))
     = [LeadTimeForChange.sample 3600]
  /\ sinks (snd (LeadTimeForChange.lambda_handler
                   Scenario.cfg (Scenario.with_athena "SUCCEEDED" "2023-01-01T01:00:00Z" 0)
                   (Scenario.pipeline_event "SUCCEEDED" "repo1" "main" "Update")))
     = [].
Proof.
  split; [|split; [|split]].
  - intros cfg w event s. rewrite lt_lambda_handler_sinks. apply lt_handler_body_sinks.
  - intros w a b us H. rewrite emit_duration_sinks, H. reflexivity.
  - vm_compute. reflexivity.
  - vm_compute. reflexivity.
Qed.

Lemma lead_time_is_elapsed_seconds_witness :
  exists event_time commit_id repository_name commit_time a b us,
    subscript (Scenario.pipeline_event "SUCCEEDED" "repo1" "main" "Update") "time"
    = Ok (VStr event_time)
    /\ fst (LeadTimeForChange.query_athena_for_commits
              Scenario.cfg (Scenario.with_athena "SUCCEEDED" "2023-01-01T00:00:00Z" 0)
              commit_id repository_name)
       = Return (VStr commit_time)
    /\ iso8601 event_time = Ok a
    /\ iso8601 commit_time = Ok b
    /\ datetime_sub a (VDatetime b) = Ok us
    /\ us <> 0
    /\ LeadTimeForChange.sample 3600 = LeadTimeForChange.sample (total_seconds us).
Proof.
  apply (proj1 lead_time_is_elapsed_seconds
               Scenario.cfg (Scenario.with_athena "SUCCEEDED" "2023-01-01T00:00:00Z" 0)
               (Scenario.pipeline_event "SUCCEEDED" "repo1" "main" "Update")
               (LeadTimeForChange.sample 3600)).
  vm_compute. left. reflexivity.
Defined.

(** ** The Athena query client *)

Lemma timed_out w :
  (LeadTimeForChange.timeout < time_at_check w - time_at_start w)%Q ->
  negb (Qle_bool (time_at_check w - time_at_start w) LeadTimeForChange.timeout) = true.
Proof.
  intros H. apply negb_true_iff. apply not_true_is_false. intros Hle.
  apply Qle_bool_iff in Hle. apply (Qlt_not_le _ _ H Hle).
Qed.

(** C7, as amended. In the Athena query client, a query whose status is
    FAILED ends the invocation through [sys.exit(1)]: the status is read
    once, nothing is retried and no result is fetched. A clock reading more
    than 300 seconds after the start ends it the same way. The 300 seconds
    are a constant of the code. *)
Theorem athena_failure_and_timeout_abort
        (cfg : Config) (w : World) (commit_id repository_name : value)
        (response execution_id query_status state : value) :
  start_query_execution w cfg commit_id repository_name = Ok response ->
  subscript response "QueryExecutionId" = Ok execution_id ->
  get_query_execution w execution_id = Ok query_status ->
  LeadTimeForChange.query_state query_status = Ok state ->
  state = VStr "FAILED" \/ (300 < time_at_check w - time_at_start w)%Q ->
  LeadTimeForChange.query_athena_for_commits cfg w commit_id repository_name
  = (Exit 1, [CallStartQueryExecution commit_id repository_name;
              CallGetQueryExecution execution_id])
  /\ forall event pipeline_name pipeline_event_time,
      LeadTimeForChange.read_event event
      = Ok (pipeline_name, commit_id, repository_name, pipeline_event_time) ->
      LeadTimeForChange.lambda_handler cfg w event
      = (Exit 1, [CallStartQueryExecution commit_id repository_name;
                  CallGetQueryExecution execution_id]).
Proof.
  intros Hstart Hid Hstatus Hstate Habort.
  assert (Hquery : LeadTimeForChange.query_athena_for_commits cfg w commit_id repository_name
                   = (Exit 1, [CallStartQueryExecution commit_id repository_name;
                               CallGetQueryExecution execution_id])).
  { unfold LeadTimeForChange.query_athena_for_commits.
    rewrite Hstart; simpl. rewrite Hid; simpl. rewrite Hstatus; simpl.
    rewrite Hstate; simpl.
    destruct Habort as [->|Hlate]; simpl; [reflexivity|].
    rewrite (timed_out w Hlate). destruct (eq_str state "FAILED"); reflexivity. }
  split; [exact Hquery|].
  intros event name time Hread.
  unfold LeadTimeForChange.lambda_handler, LeadTimeForChange.handler_body.
  rewrite Hread; simpl. rewrite Hquery. reflexivity.
Qed.

Lemma athena_failure_and_timeout_abort_witness :
  LeadTimeForChange.query_athena_for_commits
    Scenario.cfg (Scenario.with_athena "FAILED" "2023-01-01T00:00:00Z" 0)
    (VStr "abc123") (VStr "repo1")
  = (Exit 1, [CallStartQueryExecution (VStr "abc123") (VStr "repo1");
              CallGetQueryExecution (VStr "1234-5678-91011")])
  /\ forall event pipeline_name pipeline_event_time,
      LeadTimeForChange.read_event event
      = Ok (pipeline_name, VStr "abc123", VStr "repo1", pipeline_event_time) ->
      LeadTimeForChange.lambda_handler
        Scenario.cfg (Scenario.with_athena "FAILED" "2023-01-01T00:00:00Z" 0) event
      = (Exit 1, [CallStartQueryExecution (VStr "abc123") (VStr "repo1");
                  CallGetQueryExecution (VStr "1234-5678-91011")]).
Proof.
  apply (athena_failure_and_timeout_abort
           Scenario.cfg (Scenario.with_athena "FAILED" "2023-01-01T00:00:00Z" 0)
           (VStr "abc123") (VStr "repo1")
           (VDict [("QueryExecutionId", VStr "1234-5678-91011")])
           (VStr "1234-5678-91011") (Scenario.query_status "FAILED") (VStr "FAILED"));
    try reflexivity.
  left. reflexivity.
Defined.

(** Against C7 as stated (a configurable timeout): whatever the configuration,
    a running query is abandoned when the clock reads 301 seconds and is not
    when it reads 300. *)
Lemma timeout_is_not_configurable :
  (forall cfg,
      fst (LeadTimeForChange.query_athena_for_commits
             cfg (Scenario.with_athena "RUNNING" "2023-01-01T00:00:00Z" 301)
             (VStr "abc123") (VStr "repo1")) = Exit 1)
  /\ (forall cfg,
         fst (LeadTimeForChange.query_athena_for_commits
                cfg (Scenario.with_athena "RUNNING" "2023-01-01T00:00:00Z" 300)
                (VStr "abc123") (VStr "repo1")) = Return VNone).
Proof. split; intros cfg; reflexivity. Qed.

(** ** Pipeline not found *)

Section PipelineNotFound.
Variable cfg : Config.
Variable w : World.
Hypothesis unknown : forall name, get_pipeline w name = Err PipelineNotFoundException.

Lemma df_pipeline_not_found event :
  DeploymentFrequency.lambda_handler cfg w event
  = (Return (response 500 "Error processing the event"), [])
  \/ exists name,
      DeploymentFrequency.lambda_handler cfg w event
      = (Return (response 500 "Error processing the event"), [CallGetPipeline name]).
Proof.
  unfold DeploymentFrequency.lambda_handler.
  destruct (json_dumps event); simpl; auto.
  destruct (subscript event "detail") as [detail|]; simpl; auto.
  destruct (subscript detail "state"); simpl; auto.
  destruct (subscript detail "pipeline") as [name|]; simpl; auto.
  rewrite unknown; simpl. right. exists name. reflexivity.
Qed.

Lemma mttr_pipeline_not_found event :
  (exists e, MeanTimeToRestore.lambda_handler cfg w event = (Raise e, []))
  \/ exists name,
      MeanTimeToRestore.lambda_handler cfg w event
      = (Return (response 500 "Pipeline not found"), [CallGetPipeline name]).
Proof.
  unfold MeanTimeToRestore.lambda_handler.
  destruct (subscript event "detail") as [detail|]; simpl; eauto.
  destruct (subscript detail "pipeline") as [name|]; simpl; eauto.
  destruct (subscript detail "state"); simpl; eauto.
  destruct (subscript detail "execution-trigger") as [trigger|]; simpl; eauto.
  destruct (subscript trigger "full-repository-name"); simpl; eauto.
  destruct (subscript trigger "branch-name"); simpl; eauto.
  destruct (subscript trigger "commit-message"); simpl; eauto.
  rewrite unknown; simpl. right. exists name. reflexivity.
Qed.

End PipelineNotFound.

(** C4, as amended. In the deployment-frequency and mean-time-to-restore
    handlers, when [get_pipeline] answers "pipeline not found", the
    invocation returns a status-500 acknowledgement and sends nothing to
    the metrics sink; the only outcome without that acknowledgement is a
    mean-time-to-restore event so malformed that the handler raises before
    it makes the call. *)
Theorem pipeline_not_found_is_reported (cfg : Config) (w : World) (event : value) :
  (forall name, get_pipeline w name = Err PipelineNotFoundException) ->
  (fst (DeploymentFrequency.lambda_handler cfg w event)
   = Return (response 500 "Error processing the event")
   /\ sinks (snd (DeploymentFrequency.lambda_handler cfg w event)) = [])
  /\ ((exists name,
          MeanTimeToRestore.lambda_handler cfg w event
          = (Return (response 500 "Pipeline not found"), [CallGetPipeline name]))
      \/ (exists e, MeanTimeToRestore.lambda_handler cfg w event = (Raise e, [])))
  /\ sinks (snd (MeanTimeToRestore.lambda_handler cfg w event)) = [].
Proof.
  intros unknown.
  pose proof (df_pipeline_not_found cfg w unknown event) as Hdf.
  pose proof (mttr_pipeline_not_found cfg w unknown event) as Hmttr.
  split; [|split].
  - destruct Hdf as [->|[name ->]]; split; reflexivity.
  - destruct Hmttr as [H|H]; [right|left]; exact H.
  - destruct Hmttr as [[e ->]|[name ->]]; reflexivity.
Qed.

Lemma pipeline_not_found_is_reported_witness :
  (fst (DeploymentFrequency.lambda_handler
          Scenario.cfg (Scenario.with_athena "SUCCEEDED" "2023-01-01T00:00:00Z" 0)
          (Scenario.pipeline_event "SUCCEEDED" "repo1" "main" "Update"))
   = Return (response 500 "Error processing the event")
   /\ sinks (snd (DeploymentFrequency.lambda_handler
                    Scenario.cfg (Scenario.with_athena "SUCCEEDED" "2023-01-01T00:00:00Z" 0)
                    (Scenario.pipeline_event "SUCCEEDED" "repo1" "main" "Update"))) = [])
  /\ ((exists name,
          MeanTimeToRestore.lambda_handler
            Scenario.cfg (Scenario.with_athena "SUCCEEDED" "2023-01-01T00:00:00Z" 0)
            (Scenario.pipeline_event "SUCCEEDED" "repo1" "main" "Update")
          = (Return (response 500 "Pipeline not found"), [CallGetPipeline name]))
      \/ (exists e,
             MeanTimeToRestore.lambda_handler
               Scenario.cfg (Scenario.with_athena "SUCCEEDED" "2023-01-01T00:00:00Z" 0)
               (Scenario.pipeline_event "SUCCEEDED" "repo1" "main" "Update")
             = (Raise e, [])))
  /\ sinks (snd (MeanTimeToRestore.lambda_handler
                   Scenario.cfg (Scenario.with_athena "SUCCEEDED" "2023-01-01T00:00:00Z" 0)
                   (Scenario.pipeline_event "SUCCEEDED" "repo1" "main" "Update"))) = [].
Proof.
  apply (pipeline_not_found_is_reported
           Scenario.cfg (Scenario.with_athena "SUCCEEDED" "2023-01-01T00:00:00Z" 0)
           (Scenario.pipeline_event "SUCCEEDED" "repo1" "main" "Update")).
  intros name. reflexivity.
Defined.

(** Against C4 as stated: CodePipeline does not know the pipeline (both of
    its calls raise "pipeline not found"), and the lead-time handler, for a
    release-branch repository, returns its success answer and sends a
    sample. *)
Lemma lead_time_ignores_pipeline_not_found :
  get_pipeline_state (Scenario.with_athena "SUCCEEDED" "2023-01-01T00:00:00Z" 0)
                     (VStr "github-dora-test")
  = Err PipelineNotFoundException
  /\ LeadTimeForChange.lambda_handler
       Scenario.cfg (Scenario.with_athena "SUCCEEDED" "2023-01-01T00:00:00Z" 0)
       (Scenario.pipeline_event "SUCCEEDED" "repo1" "main" "Update")
     = (Return LeadTimeForChange.success,
        [CallStartQueryExecution (VStr "abc123") (VStr "repo1");
         CallGetQueryExecution (VStr "1234-5678-91011");
         CallGetQueryResults (VStr "1234-5678-91011");
         CallGetPipelineState (VStr "github-dora-test");
         CallPutMetricData (LeadTimeForChange.sample 3600)]).
Proof. split; vm_compute; reflexivity. Qed.

(** ** Release model *)

(** C1 fails on the code. The configured names are held as the one string
    the environment gives, so [in] is the substring test: "app" is none of
    the three configured names, yet it is classified trunk-based. With state
    SUCCEEDED, branch "master" and a failed production stage the
    release-branch rule would count a deployment; the handler, on the
    trunk-based rule, counts none. A name that is no substring takes the
    release-branch rule. *)
Theorem substring_of_configured_name_is_trunk_based :
  in_list "app" ["repo-app-sample-1"; "amazon/github-dora"; "app1"] = false
  /\ in_env (VStr "app") (app_repo_list Scenario.cfg) = Ok true
  /\ sinks (snd (DeploymentFrequency.lambda_handler
                   Scenario.cfg (Scenario.with_pipeline "master" "app" "DeployPROD" "Failed")
                   (Scenario.pipeline_event "SUCCEEDED" "app" "master" "Update")))
     = []
  /\ sinks (snd (DeploymentFrequency.lambda_handler
                   Scenario.cfg (Scenario.with_pipeline "master" "web" "DeployPROD" "Failed")
                   (Scenario.pipeline_event "SUCCEEDED" "web" "master" "Update")))
     = [DeploymentFrequency.sample].
Proof. repeat split; vm_compute; reflexivity. Qed.

(** ** No matching incident *)

(** C2 fails on the code. An event on the default branch with state
    SUCCEEDED, for a release-branch repository, and an incident store
    without a matching OpsItem: [creation_time] stays [None], both
    [locals()] guards pass, and [calculate_downtime] subtracts [None] from
    a [datetime]. The handler raises [TypeError]; nothing is sent. *)
Theorem no_matching_incident_raises :
  MeanTimeToRestore.lambda_handler
    Scenario.cfg (Scenario.with_ops_items "main" "repo1" "Deploy" "Succeeded" [])
    (Scenario.pipeline_event "SUCCEEDED" "repo1" "main"
                             "Merge pull request #123 from fix/incident-123/hotfix")
  = (Raise TypeError,
     [CallGetPipeline (VStr "github-dora-test");
      CallDescribeOpsItems (VStr "hotfix");
      CallGetPipelineState (VStr "github-dora-test")]).
Proof. vm_compute. reflexivity. Qed.

(** ** Source configuration *)

(** C8 fails on the code. For a pipeline without a stage named "Source" the
    function returns the single object [None], not a pair; the handler's
    unpacking of it raises, and the invocation ends in the status-500
    answer although the event's state is SUCCEEDED. *)
Theorem missing_source_stage_returns_none :
  DeploymentFrequency.extract_branch_from_pipeline_details Scenario.pipeline_without_source
  = Ok None
  /\ DeploymentFrequency.unpack_pair None = Err TypeError
  /\ DeploymentFrequency.lambda_handler
       Scenario.cfg (Scenario.with_details Scenario.pipeline_without_source "DeployPROD" "Succeeded")
       (Scenario.pipeline_event "SUCCEEDED" "web" "master" "Update")
     = (Return (response 500 "Error processing the event"),
        [CallGetPipeline (VStr "github-dora-test")]).
Proof. repeat split; vm_compute; reflexivity. Qed.

(** ** Incident id *)








(** ** Further properties of the handlers *)

(** X3. Change failure rate: the handler sends nothing or its one count-1 sample,
    and sends it exactly for an event of type "OpsItem Create" whose status
    is "Open". *)
Theorem change_failure_rate_emission (w : World) (event : value) :
  (sinks (snd (ChangeFailureRate.lambda_handler w event)) = [ChangeFailureRate.sample]
   \/ sinks (snd (ChangeFailureRate.lambda_handler w event)) = [])
  /\ (sinks (snd (ChangeFailureRate.lambda_handler w event)) = [ChangeFailureRate.sample]
      <-> json_serializable event = true
          /\ subscript event "detail-type" = Ok (VStr "OpsItem Create")
          /\ exists detail, subscript event "detail" = Ok detail
                            /\ subscript detail "status" = Ok (VStr "Open")).
Proof.
  unfold ChangeFailureRate.lambda_handler, json_dumps.
  destruct (json_serializable event); simpl;
    [|split; [auto|split; [discriminate|intros (H & _); discriminate H]]].
  destruct (subscript event "detail-type") as [detail_type|]; simpl;
    [|split; [auto|split; [discriminate|intros (_ & H & _); discriminate H]]].
  destruct (subscript event "detail") as [detail|]; simpl;
    [|split; [auto|split; [discriminate|intros (_ & _ & d & H & _); discriminate H]]].
  destruct (subscript detail "status") as [status|] eqn:Hstatus; simpl;
    [|split; [auto|split; [discriminate|]];
      intros (_ & _ & d & H & H'); injection H as <-; congruence].
  destruct (eq_str detail_type "OpsItem Create") eqn:Htype; simpl;
    [destruct (eq_str status "Open") eqn:Hopen; simpl|].
  - apply eq_str_true in Htype, Hopen. subst.
    unfold ChangeFailureRate.failed_deployments_metric.
    destruct (put_metric_data w ChangeFailureRate.sample); simpl;
      (split; [auto|split; [intros _|reflexivity]]);
      (split; [reflexivity|split; [reflexivity|exists detail; auto]]).
  - split; [auto|split; [discriminate|]].
    intros (_ & _ & d & H & H'). injection H as <-.
    rewrite Hstatus in H'. injection H' as ->. discriminate Hopen.
  - split; [auto|split; [discriminate|]].
    intros (_ & H & _). injection H as ->. discriminate Htype.
Qed.

(** ** Publishing *)

Lemma deployment_frequency_metric_eq w :
  DeploymentFrequency.deployment_frequency_metric w
  = (Return tt, [CallPutMetricData DeploymentFrequency.sample]).
Proof.
  unfold DeploymentFrequency.deployment_frequency_metric.
  destruct (put_metric_data w DeploymentFrequency.sample); reflexivity.
Qed.

Lemma failed_deployments_metric_eq w :
  ChangeFailureRate.failed_deployments_metric w
  = (Return tt, [CallPutMetricData ChangeFailureRate.sample]).
Proof.
  unfold ChangeFailureRate.failed_deployments_metric.
  destruct (put_metric_data w ChangeFailureRate.sample); reflexivity.
Qed.

Lemma lead_time_for_change_metric_eq w d :
  LeadTimeForChange.lead_time_for_change_metric w d
  = (Return tt, [CallPutMetricData (LeadTimeForChange.sample d)]).
Proof.
  unfold LeadTimeForChange.lead_time_for_change_metric.
  destruct (put_metric_data w (LeadTimeForChange.sample d)); reflexivity.
Qed.

Lemma send_to_cloudwatch_eq w name reference d :
  MeanTimeToRestore.send_to_cloudwatch w name reference d
  = (Return tt, [CallPutMetricData (MeanTimeToRestore.sample d)]).
Proof.
  unfold MeanTimeToRestore.send_to_cloudwatch.
  destruct (put_metric_data w (MeanTimeToRestore.sample d)); reflexivity.
Qed.

Lemma bind_ext {A B} (m : M A) (f g : A -> M B) :
  (forall a, f a = g a) -> bind m f = bind m g.
Proof.
  intros H. unfold bind. destruct m as [[a|e|c] t]; [rewrite H|..]; reflexivity.
Qed.

Section Publish.
Variable cfg : Config.
Variable w : World.
Variable put : MetricSample -> res value.

Lemma emit_duration_put a b :
  LeadTimeForChange.emit_duration (with_put w put) a b = LeadTimeForChange.emit_duration w a b.
Proof.
  unfold LeadTimeForChange.emit_duration. apply bind_ext. intros d.
  destruct (truthy (VFloat (total_seconds d))); [|reflexivity].
  rewrite !lead_time_for_change_metric_eq. reflexivity.
Qed.

Lemma lt_handler_body_put event :
  LeadTimeForChange.handler_body cfg (with_put w put) event
  = LeadTimeForChange.handler_body cfg w event.
Proof.
  unfold LeadTimeForChange.handler_body.
  apply bind_ext. intros [[[name commit] repo] time].
  apply bind_ext. intros earliest.
  apply bind_ext. intros [a b].
  apply bind_ext. intros sd.
  apply bind_ext. intros [|]; [|apply emit_duration_put].
  apply bind_ext. intros [|]; [apply emit_duration_put|reflexivity].
Qed.

Lemma after_pipeline_details_put event name state repo branch message :
  MeanTimeToRestore.after_pipeline_details cfg (with_put w put) event name state repo branch message
  = MeanTimeToRestore.after_pipeline_details cfg w event name state repo branch message.
Proof.
  unfold MeanTimeToRestore.after_pipeline_details.
  apply bind_ext. intros [[creation final] reference].
  apply bind_ext. intros sd.
  apply bind_ext. intros trunk.
  f_equal. destruct trunk.
  - apply bind_ext. intros [|]; [|reflexivity].
    apply bind_ext. intros d.
    destruct (truthy (VFloat d)); [|reflexivity].
    apply bind_ext. intros r. rewrite !send_to_cloudwatch_eq. reflexivity.
  - apply bind_ext. intros d.
    apply bind_ext. intros r. rewrite !send_to_cloudwatch_eq. reflexivity.
Qed.

End Publish.

(** X4. A failure to publish is swallowed: what CloudWatch answers, or raises,
    changes neither the outcome nor the calls of any of the four handlers. *)
Theorem publish_failure_is_swallowed
        (cfg : Config) (w : World) (put : MetricSample -> res value) (event : value) :
  DeploymentFrequency.lambda_handler cfg (with_put w put) event
  = DeploymentFrequency.lambda_handler cfg w event
  /\ LeadTimeForChange.lambda_handler cfg (with_put w put) event
     = LeadTimeForChange.lambda_handler cfg w event
  /\ MeanTimeToRestore.lambda_handler cfg (with_put w put) event
     = MeanTimeToRestore.lambda_handler cfg w event
  /\ ChangeFailureRate.lambda_handler (with_put w put) event
     = ChangeFailureRate.lambda_handler w event.
Proof.
  repeat split.
  - unfold DeploymentFrequency.lambda_handler.
    rewrite !deployment_frequency_metric_eq. reflexivity.
  - unfold LeadTimeForChange.lambda_handler. rewrite lt_handler_body_put. reflexivity.
  - unfold MeanTimeToRestore.lambda_handler.
    repeat (apply bind_ext; intros ?).
    match goal with |- match ?x with _ => _ end = _ => destruct x end;
      [apply after_pipeline_details_put|reflexivity].
  - unfold ChangeFailureRate.lambda_handler.
    rewrite !failed_deployments_metric_eq. reflexivity.
Qed.

(** ** The status poll *)

(** X5. A query that is neither FAILED nor SUCCEEDED when its status is read,
    within the 300 seconds: the client sleeps ten seconds once, does not read
    the status again, fetches nothing and returns [None]. *)
Theorem running_query_is_polled_once
        (cfg : Config) (w : World) (commit_id repository_name : value)
        (response execution_id query_status state : value) :
  start_query_execution w cfg commit_id repository_name = Ok response ->
  subscript response "QueryExecutionId" = Ok execution_id ->
  get_query_execution w execution_id = Ok query_status ->
  LeadTimeForChange.query_state query_status = Ok state ->
  state <> VStr "FAILED" -> state <> VStr "SUCCEEDED" ->
  (time_at_check w - time_at_start w <= 300)%Q ->
  LeadTimeForChange.query_athena_for_commits cfg w commit_id repository_name
  = (Return VNone, [CallStartQueryExecution commit_id repository_name;
                    CallGetQueryExecution execution_id;
                    CallSleep 10]).
Proof.
  intros Hstart Hid Hstatus Hstate Hfailed Hsucceeded Htime.
  unfold LeadTimeForChange.query_athena_for_commits.
  rewrite Hstart; simpl. rewrite Hid; simpl. rewrite Hstatus; simpl.
  rewrite Hstate; simpl.
  destruct (eq_str state "FAILED") eqn:E1; [apply eq_str_true in E1; contradiction|].
  destruct (eq_str state "SUCCEEDED") eqn:E2; [apply eq_str_true in E2; contradiction|].
  apply Qle_bool_iff in Htime. unfold LeadTimeForChange.timeout. rewrite Htime.
  reflexivity.
Qed.

Lemma running_query_is_polled_once_witness :
  LeadTimeForChange.query_athena_for_commits
    Scenario.cfg (Scenario.with_athena "RUNNING" "2023-01-01T00:00:00Z" 300)
    (VStr "abc123") (VStr "repo1")
  = (Return VNone, [CallStartQueryExecution (VStr "abc123") (VStr "repo1");
                    CallGetQueryExecution (VStr "1234-5678-91011");
                    CallSleep 10]).
Proof.
  apply (running_query_is_polled_once
           Scenario.cfg (Scenario.with_athena "RUNNING" "2023-01-01T00:00:00Z" 300)
           (VStr "abc123") (VStr "repo1")
           (VDict [("QueryExecutionId", VStr "1234-5678-91011")])
           (VStr "1234-5678-91011") (Scenario.query_status "RUNNING") (VStr "RUNNING"));
    try reflexivity; try discriminate.
Defined.

(** ** Stage statuses without stage-state data *)

(** X6. When the answer of [get_pipeline_state] has no "stageStates", each of the
    three [get_stage_details] returns the empty list and raises nothing. *)
Theorem stage_details_empty_without_stage_states
        (w : World) (pipeline_name : value) (answer : list (string * value)) :
  get_pipeline_state w pipeline_name = Ok (VDict answer) ->
  lookup "stageStates" answer = None ->
  DeploymentFrequency.get_stage_details w pipeline_name
  = (Return (VList []), [CallGetPipelineState pipeline_name])
  /\ LeadTimeForChange.get_stage_details w pipeline_name
     = (Return (VList []), [CallGetPipelineState pipeline_name])
  /\ MeanTimeToRestore.get_stage_details w pipeline_name
     = (Return (VList []), [CallGetPipelineState pipeline_name]).
Proof.
  intros Hanswer Hmissing.
  unfold DeploymentFrequency.get_stage_details, LeadTimeForChange.get_stage_details,
    MeanTimeToRestore.get_stage_details.
  rewrite Hanswer. simpl. rewrite Hmissing. repeat split; reflexivity.
Qed.

Lemma stage_details_empty_without_stage_states_witness :
  DeploymentFrequency.get_stage_details
    (Scenario.with_state (VDict [("pipelineName", VStr "github-dora-test")]))
    (VStr "github-dora-test")
  = (Return (VList []), [CallGetPipelineState (VStr "github-dora-test")])
  /\ LeadTimeForChange.get_stage_details
       (Scenario.with_state (VDict [("pipelineName", VStr "github-dora-test")]))
       (VStr "github-dora-test")
     = (Return (VList []), [CallGetPipelineState (VStr "github-dora-test")])
  /\ MeanTimeToRestore.get_stage_details
       (Scenario.with_state (VDict [("pipelineName", VStr "github-dora-test")]))
       (VStr "github-dora-test")
     = (Return (VList []), [CallGetPipelineState (VStr "github-dora-test")]).
Proof.
  apply (stage_details_empty_without_stage_states
           (Scenario.with_state (VDict [("pipelineName", VStr "github-dora-test")]))
           (VStr "github-dora-test") [("pipelineName", VStr "github-dora-test")]);
    reflexivity.
Defined.

(** ** The source configuration when it is there *)

Lemma scan_actions_first others action rest type_id configuration :
  Forall other_action others ->
  subscript action "actionTypeId" = Ok type_id ->
  subscript type_id "category" = Ok (VStr "Source") ->
  subscript action "configuration" = Ok (VDict configuration) ->
  DeploymentFrequency.scan_actions (others ++ action :: rest)
  = Ok (Some (match lookup "BranchName" configuration with Some b => b | None => VNone end,
              match lookup "RepositoryName" configuration with Some r => r | None => VNone end)).
Proof.
  intros Hothers Htype Hcategory Hconfiguration.
  induction Hothers as [|other others (t & c & Ht & Hc & Hne) _ IH]; simpl.
  - rewrite Htype; simpl. rewrite Hcategory; simpl. rewrite Hconfiguration; simpl.
    reflexivity.
  - rewrite Ht; simpl. rewrite Hc; simpl. rewrite Hne. exact IH.
Qed.

Lemma scan_stages_first others stage rest actions found :
  Forall other_stage others ->
  subscript stage "name" = Ok (VStr "Source") ->
  subscript stage "actions" = Ok (VList actions) ->
  DeploymentFrequency.scan_actions actions = Ok (Some found) ->
  DeploymentFrequency.scan_stages (others ++ stage :: rest) = Ok (Some found).
Proof.
  intros Hothers Hname Hactions Hfound.
  induction Hothers as [|other others (n & Hn & Hne) _ IH]; simpl.
  - rewrite Hname; simpl. rewrite Hactions; simpl. rewrite Hfound; simpl. reflexivity.
  - rewrite Hn; simpl. rewrite Hne. exact IH.
Qed.

(** X7. When the first stage named "Source" has a source-category action, the
    function returns the [BranchName] and [RepositoryName] of the
    configuration of the first such action ([None] for a key the
    configuration lacks). *)
Theorem source_configuration_of_first_source_action
        (stages_before stages_after actions_before actions_after : list value)
        (stage action type_id : value) (configuration : list (string * value)) :
  Forall other_stage stages_before ->
  subscript stage "name" = Ok (VStr "Source") ->
  subscript stage "actions" = Ok (VList (actions_before ++ action :: actions_after)) ->
  Forall other_action actions_before ->
  subscript action "actionTypeId" = Ok type_id ->
  subscript type_id "category" = Ok (VStr "Source") ->
  subscript action "configuration" = Ok (VDict configuration) ->
  DeploymentFrequency.extract_branch_from_pipeline_details
    (VDict [("pipeline", VDict [("stages", VList (stages_before ++ stage :: stages_after))])])
  = Ok (Some (match lookup "BranchName" configuration with Some b => b | None => VNone end,
              match lookup "RepositoryName" configuration with Some r => r | None => VNone end)).
Proof.
  intros Hstages Hname Hactions Hbefore Htype Hcategory Hconfiguration.
  unfold DeploymentFrequency.extract_branch_from_pipeline_details. simpl.
  eapply scan_stages_first; eauto.
  eapply scan_actions_first; eauto.
Qed.

Lemma source_configuration_of_first_source_action_witness :
  DeploymentFrequency.extract_branch_from_pipeline_details
    (VDict [("pipeline", VDict [("stages", VList (
       [VDict [("name", VStr "Build"); ("actions", VList [])]]
       ++ VDict [("name", VStr "Source");
                 ("actions", VList (
                    [VDict [("actionTypeId", VDict [("category", VStr "Approval")])]]
                    ++ VDict [("actionTypeId", VDict [("category", VStr "Source")]);
                              ("configuration", VDict [("BranchName", VStr "main");
                                                       ("RepositoryName", VStr "repo1")])]
                    :: []))]
       :: []))])])
  = Ok (Some (VStr "main", VStr "repo1")).
Proof.
  apply (source_configuration_of_first_source_action
           [VDict [("name", VStr "Build"); ("actions", VList [])]] []
           [VDict [("actionTypeId", VDict [("category", VStr "Approval")])]] []
           (VDict [("name", VStr "Source");
                   ("actions", VList (
                      [VDict [("actionTypeId", VDict [("category", VStr "Approval")])]]
                      ++ VDict [("actionTypeId", VDict [("category", VStr "Source")]);
                                ("configuration", VDict [("BranchName", VStr "main");
                                                         ("RepositoryName", VStr "repo1")])]
                      :: []))])
           (VDict [("actionTypeId", VDict [("category", VStr "Source")]);
                   ("configuration", VDict [("BranchName", VStr "main");
                                            ("RepositoryName", VStr "repo1")])])
           (VDict [("category", VStr "Source")])
           [("BranchName", VStr "main"); ("RepositoryName", VStr "repo1")]);
    try reflexivity.
  - constructor; [|constructor]. exists (VStr "Build"). split; reflexivity.
  - constructor; [|constructor].
    exists (VDict [("category", VStr "Approval")]), (VStr "Approval").
    repeat split; reflexivity.
Defined.

(** ** Downtime without a creation time *)

Lemma mttr_get_stage_details_shape w name :
  exists v, MeanTimeToRestore.get_stage_details w name
            = (Return v, [CallGetPipelineState name]).
Proof.
  unfold MeanTimeToRestore.get_stage_details.
  destruct (get_pipeline_state w name) as [response|e]; simpl;
    [|destruct e; simpl; eauto].
  destruct (has_key "stageStates" response) as [[|]|e]; simpl;
    [|eauto|destruct e; simpl; eauto].
  destruct (subscript response "stageStates") as [stages|e]; simpl;
    [|destruct e; simpl; eauto].
  destruct (iter stages) as [l|e]; simpl; [|destruct e; simpl; eauto].
  destruct (stage_summaries l) as [l'|e]; simpl; [eauto|destruct e; simpl; eauto].
Qed.

Lemma calculate_downtime_of_none w final_time :
  exists e, MeanTimeToRestore.calculate_downtime w VNone final_time = Err e.
Proof.
  unfold MeanTimeToRestore.calculate_downtime.
  destruct (MeanTimeToRestore.parse_value w final_time) as [[us|us]|e]; simpl; eauto.
Qed.

(** X8. For a repository that is not trunk-based, an event on the default branch
    with state SUCCEEDED whose incident is not found (the creation time stays
    [None]) never completes: the handler raises after [get_pipeline] has
    answered, and sends nothing. *)
Theorem no_creation_time_raises_for_release_branch
        (cfg : Config) (w : World)
        (event pipeline_name state repository_name branch_name commit_message : value)
        (final_time source_reference : value) :
  branch_name = match default_branch cfg with Some b => VStr b | None => VNone end ->
  state = VStr "SUCCEEDED" ->
  fst (MeanTimeToRestore.find_ops_item w event commit_message)
  = Return (final_time, source_reference, VNone) ->
  in_env repository_name (app_repo_list cfg) = Ok false ->
  (exists e,
      fst (MeanTimeToRestore.after_pipeline_details
             cfg w event pipeline_name state repository_name branch_name commit_message)
      = Raise e)
  /\ sinks (snd (MeanTimeToRestore.after_pipeline_details
                   cfg w event pipeline_name state repository_name branch_name commit_message))
     = [].
Proof.
  intros Hbranch Hstate Hfind Hrelease.
  apply eq_env_true in Hbranch. apply eq_str_true in Hstate.
  pose proof (find_ops_item_quiet w event commit_message) as Hquiet. unfold quiet in Hquiet.
  unfold MeanTimeToRestore.after_pipeline_details.
  rewrite Hbranch, Hstate. simpl.
  destruct (MeanTimeToRestore.find_ops_item w event commit_message) as [[found|e|c] t];
    simpl in Hfind, Hquiet; try discriminate Hfind.
  injection Hfind as ->. simpl.
  destruct (mttr_get_stage_details_shape w pipeline_name) as (sd & ->). simpl.
  rewrite Hrelease. simpl.
  destruct (calculate_downtime_of_none w final_time) as (e & ->). simpl.
  rewrite !app_nil_r. rewrite sinks_app, Hquiet. split; [eauto|reflexivity].
Qed.

Lemma no_creation_time_raises_for_release_branch_witness :
  (exists e,
      fst (MeanTimeToRestore.after_pipeline_details
             Scenario.cfg (Scenario.with_ops_items "main" "repo1" "Deploy" "Succeeded" [])
             (Scenario.pipeline_event "SUCCEEDED" "repo1" "main" "Merge pull request #123 from owner/incident-123")
             (VStr "github-dora-test") (VStr "SUCCEEDED") (VStr "repo1") (VStr "main")
             (VStr "Merge pull request #123 from owner/incident-123"))
      = Raise e)
  /\ sinks (snd (MeanTimeToRestore.after_pipeline_details
                   Scenario.cfg (Scenario.with_ops_items "main" "repo1" "Deploy" "Succeeded" [])
                   (Scenario.pipeline_event "SUCCEEDED" "repo1" "main" "Merge pull request #123 from owner/incident-123")
                   (VStr "github-dora-test") (VStr "SUCCEEDED") (VStr "repo1") (VStr "main")
                   (VStr "Merge pull request #123 from owner/incident-123")))
     = [].
Proof.
  apply (no_creation_time_raises_for_release_branch
           Scenario.cfg (Scenario.with_ops_items "main" "repo1" "Deploy" "Succeeded" [])
           (Scenario.pipeline_event "SUCCEEDED" "repo1" "main" "Merge pull request #123 from owner/incident-123")
           (VStr "github-dora-test") (VStr "SUCCEEDED") (VStr "repo1") (VStr "main")
           (VStr "Merge pull request #123 from owner/incident-123")
           (VStr "2023-01-01T01:00:00Z") (VStr "incident-123"));
    reflexivity.
Defined.

(** ** The substring test behind the release model *)

Lemma prefix_app n post : String.prefix n (n ++ post) = true.
Proof.
  induction n as [|a n IH]; simpl; [destruct post; reflexivity|].
  destruct (ascii_dec a a) as [_|H]; [exact IH|contradiction].
Qed.

Lemma prefix_split n h : String.prefix n h = true -> exists post, h = n ++ post.
Proof.
  revert h. induction n as [|a n IH]; intros h H; [exists h; reflexivity|].
  destruct h as [|b h]; simpl in H; [discriminate|].
  destruct (ascii_dec a b) as [->|_]; [|discriminate].
  destruct (IH h H) as (post & ->). exists post. reflexivity.
Qed.

Lemma append_assoc (a b c : string) : (a ++ b) ++ c = a ++ b ++ c.
Proof. induction a as [|x a IH]; simpl; [reflexivity|]. rewrite IH. reflexivity. Qed.

Lemma append_nil_r (a : string) : a ++ EmptyString = a.
Proof. induction a as [|x a IH]; simpl; [reflexivity|]. rewrite IH. reflexivity. Qed.

(** [needle in hay] holds exactly when [hay] is [needle] with something
    before and something after. *)
Lemma contains_iff needle hay :
  contains needle hay = true <-> exists pre post, hay = pre ++ needle ++ post.
Proof.
  split.
  - induction hay as [|a hay IH]; cbn [contains]; intros H.
    + rewrite orb_false_r in H. apply prefix_split in H. destruct H as (post & H).
      exists EmptyString, post. exact H.
    + apply orb_true_iff in H. destruct H as [H|H].
      * apply prefix_split in H. destruct H as (post & H).
        exists EmptyString, post. exact H.
      * destruct (IH H) as (pre & post & ->). exists (String a pre), post. reflexivity.
  - intros (pre & post & ->). induction pre as [|a pre IH].
    + change (EmptyString ++ needle ++ post) with (needle ++ post).
      assert (H : String.prefix needle (needle ++ post) = true) by apply prefix_app.
      destruct (needle ++ post); cbn [contains]; rewrite H; reflexivity.
    + change (contains needle (String a pre ++ needle ++ post))
        with (String.prefix needle (String a (pre ++ needle ++ post))
              || contains needle (pre ++ needle ++ post)).
      rewrite IH. apply orb_true_r.
Qed.

Lemma join_member sep name names :
  In name names -> exists pre post, join sep names = pre ++ name ++ post.
Proof.
  induction names as [|p rest IH]; intros H; [destruct H|].
  destruct H as [->|H].
  - destruct rest as [|q rest]; simpl.
    + exists EmptyString, EmptyString. simpl. rewrite append_nil_r. reflexivity.
    + exists EmptyString, (sep ++ join sep (q :: rest)). reflexivity.
  - destruct (IH H) as (pre & post & E).
    destruct rest as [|q rest]; [destruct H|].
    change (join sep (p :: q :: rest)) with (p ++ sep ++ join sep (q :: rest)).
    rewrite E. exists (p ++ sep ++ pre), post.
    rewrite !append_assoc. reflexivity.
Qed.

(** X9. The release-model test [repository_name in app_repo_list] is the
    substring test on the configured string: a repository is taken for
    trunk-based exactly when its name occurs somewhere in the string. So
    every name of a list joined with a separator is trunk-based, and so is
    the empty name, whatever the configuration. *)
Theorem trunk_based_iff_substring (repository_name configured : string) :
  (in_env (VStr repository_name) (Some configured) = Ok true
   <-> exists pre post, configured = pre ++ repository_name ++ post)
  /\ (forall sep names,
         In repository_name names ->
         in_env (VStr repository_name) (Some (join sep names)) = Ok true)
  /\ in_env (VStr EmptyString) (Some configured) = Ok true.
Proof.
  assert (H : in_env (VStr repository_name) (Some configured) = Ok true
              <-> exists pre post, configured = pre ++ repository_name ++ post).
  { unfold in_env. rewrite <- contains_iff. split; [intros E; injection E; auto|intros ->; reflexivity]. }
  split; [exact H|]. split.
  - intros sep names Hin. unfold in_env. f_equal. apply contains_iff.
    apply join_member, Hin.
  - unfold in_env. f_equal. apply contains_iff. exists EmptyString, configured. reflexivity.
Qed.

(** ** What an incident id can be *)

Lemma split_parts_lack_slash s : Forall (fun p => lacks slash p = true) (split s).
Proof.
  induction s as [|a s IH]; simpl; [repeat constructor|].
  destruct (Ascii.eqb a slash) eqn:E; [constructor; [reflexivity|exact IH]|].
  destruct (split s) as [|h r]; [repeat constructor; simpl; rewrite E; reflexivity|].
  inversion IH as [|? ? Hh Hr]; subst.
  constructor; [simpl; rewrite E, Hh; reflexivity|exact Hr].
Qed.

Lemma split_parts_lack c s :
  lacks c s = true -> Forall (fun p => lacks c p = true) (split s).
Proof.
  induction s as [|a s IH]; simpl; intros H; [repeat constructor|].
  apply andb_true_iff in H. destruct H as [Ha Hs]. specialize (IH Hs).
  destruct (Ascii.eqb a slash); [constructor; [reflexivity|exact IH]|].
  destruct (split s) as [|h r]; [repeat constructor; simpl; rewrite Ha; reflexivity|].
  inversion IH as [|? ? Hh Hr]; subst.
  constructor; [simpl; rewrite Ha, Hh; reflexivity|exact Hr].
Qed.

Lemma split_nonempty s : split s <> [].
Proof.
  destruct s as [|a s]; simpl; [discriminate|].
  destruct (Ascii.eqb a slash); [discriminate|]. destruct (split s); discriminate.
Qed.

Lemma line_prefix_lacks_newline s : lacks newline (line_prefix s) = true.
Proof.
  induction s as [|a s IH]; simpl; [reflexivity|].
  destruct (Ascii.eqb a newline) eqn:E; simpl; [reflexivity|].
  rewrite E, IH. reflexivity.
Qed.

Lemma match_here_lacks_newline s g : match_here s = Some g -> lacks newline g = true.
Proof.
  unfold match_here. destruct (strip_prefix "from " s) as [r|]; [|discriminate].
  destruct (split_first_slash r) as [[[|a run] rest]|]; try discriminate.
  pose proof (line_prefix_lacks_newline rest) as H.
  destruct (line_prefix rest); [discriminate|].
  intros E. injection E as <-. exact H.
Qed.

Lemma re_search_lacks_newline s g : re_search s = Some g -> lacks newline g = true.
Proof.
  induction s as [|a s IH]; cbn [re_search].
  - destruct (match_here EmptyString) eqn:E; [|discriminate].
    intros H. injection H as <-. eapply match_here_lacks_newline, E.
  - destruct (match_here (String a s)) eqn:E; [|exact IH].
    intros H. injection H as <-. eapply match_here_lacks_newline, E.
Qed.

Lemma split_first_slash_none s : lacks slash s = true -> split_first_slash s = None.
Proof.
  induction s as [|a s IH]; simpl; intros H; [reflexivity|].
  apply andb_true_iff in H. destruct H as [Ha Hs]. apply negb_true_iff in Ha.
  rewrite Ha, (IH Hs). reflexivity.
Qed.

Lemma strip_prefix_lacks c p s r :
  strip_prefix p s = Some r -> lacks c s = true -> lacks c r = true.
Proof.
  revert s. induction p as [|a p IH]; intros s; simpl.
  - intros H. injection H as <-. auto.
  - destruct s as [|b s]; [discriminate|].
    destruct (Ascii.eqb a b); [|discriminate]. intros H Hs.
    simpl in Hs. apply andb_true_iff in Hs. eapply IH; [exact H|apply Hs].
Qed.

Lemma re_search_without_slash s : lacks slash s = true -> re_search s = None.
Proof.
  assert (Hhere : forall s, lacks slash s = true -> match_here s = None).
  { intros s' H. unfold match_here.
    destruct (strip_prefix "from " s') as [r|] eqn:E; [|reflexivity].
    rewrite (split_first_slash_none r); [reflexivity|].
    eapply strip_prefix_lacks; eassumption. }
  induction s as [|a s IH]; intros H; cbn [re_search]; rewrite (Hhere _ H); [reflexivity|].
  apply IH. simpl in H. apply andb_true_iff in H. apply H.
Qed.

Lemma in_split_last (l : list string) (P : string -> Prop) d :
  Forall P l -> l <> [] -> P (last l d).
Proof.
  induction 1 as [|x l Hx Hl IH]; [contradiction|]. intros _.
  destruct l as [|y l]; [exact Hx|]. apply IH. discriminate.
Qed.

(** X10. On a message that is a [str], [extract_source_branch_name] never
    raises. The incident id it returns has no "/" and no line break; a
    message without any "/" has no incident id. *)
Theorem incident_id_has_no_slash (message : string) :
  (exists result, MeanTimeToRestore.extract_source_branch_name (VStr message) = Ok result
                  /\ (result = VNone
                      \/ exists id, result = VStr id
                                    /\ lacks slash id = true /\ lacks newline id = true))
  /\ (lacks slash message = true ->
      MeanTimeToRestore.extract_source_branch_name (VStr message) = Ok VNone).
Proof.
  split.
  - unfold MeanTimeToRestore.extract_source_branch_name.
    destruct (re_search message) as [g|] eqn:E; [|eauto].
    pose proof (split_parts_lack_slash g) as Hs.
    pose proof (split_parts_lack newline g (re_search_lacks_newline _ _ E)) as Hn.
    assert (Hboth : Forall (fun p => lacks slash p = true /\ lacks newline p = true) (split g)).
    { clear E. induction Hs as [|p l Hp Hl IH]; [constructor|].
      inversion Hn; subst. constructor; auto. }
    destruct (_ && _ && _) eqn:Hrule; eexists; (split; [reflexivity|]); right.
    + exists (nth 1 (split g) EmptyString). split; [reflexivity|].
      apply andb_true_iff in Hrule. destruct Hrule as [Hrule _].
      apply andb_true_iff in Hrule. destruct Hrule as [Hlen _].
      apply Nat.eqb_eq in Hlen.
      destruct (split g) as [|p0 [|p1 l]]; simpl in Hlen; try discriminate.
      inversion Hboth as [|? ? _ H1]; subst. inversion H1; subst. assumption.
    + exists (last (split g) EmptyString). split; [reflexivity|].
      apply (in_split_last (split g) (fun p => lacks slash p = true /\ lacks newline p = true));
        [exact Hboth|apply split_nonempty].
  - intros H. unfold MeanTimeToRestore.extract_source_branch_name.
    rewrite (re_search_without_slash _ H). reflexivity.
Qed.

Lemma incident_id_has_no_slash_witness :
  MeanTimeToRestore.extract_source_branch_name (VStr "Update the deployment guide") = Ok VNone.
Proof.
  apply (proj2 (incident_id_has_no_slash "Update the deployment guide")). reflexivity.
Defined.

(** ** Stage statuses, entry by entry *)

Lemma stage_summaries_entries stages : forall summaries,
  stage_summaries stages = Ok summaries ->
  length summaries = length stages
  /\ forall i stage,
      nth_error stages i = Some stage ->
      exists name latest status,
        subscript stage "stageName" = Ok name
        /\ subscript stage "latestExecution" = Ok latest
        /\ subscript latest "status" = Ok status
        /\ nth_error summaries i = Some (VDict [("name", name); ("status", status)]).
Proof.
  induction stages as [|stage rest IH]; simpl; intros summaries H.
  - injection H as <-. split; [reflexivity|]. intros [|i] s E; discriminate E.
  - destruct (subscript stage "stageName") as [n|] eqn:Hn; simpl in H; [|discriminate].
    destruct (subscript stage "latestExecution") as [latest|] eqn:Hl; simpl in H; [|discriminate].
    destruct (subscript latest "status") as [s|] eqn:Hs; simpl in H; [|discriminate].
    destruct (stage_summaries rest) as [tail|]; simpl in H; [|discriminate].
    injection H as <-. destruct (IH tail eq_refl) as [Hlen Hnth].
    split; [simpl; rewrite Hlen; reflexivity|].
    intros [|i] stage' E; simpl in E.
    + injection E as <-. exists n, latest, s. auto.
    + apply Hnth, E.
Qed.

Lemma stage_summaries_fails stages stage :
  In stage stages ->
  (forall latest status,
      subscript stage "latestExecution" = Ok latest -> subscript latest "status" <> Ok status) ->
  exists e, stage_summaries stages = Err e.
Proof.
  intros Hin Hbad. induction stages as [|s rest IH]; [destruct Hin|]. simpl.
  destruct (subscript s "stageName") as [n|e] eqn:Hn; simpl; [|eauto].
  destruct (subscript s "latestExecution") as [latest|e] eqn:Hl; simpl; [|eauto].
  destruct (subscript latest "status") as [st|e] eqn:Hs; simpl; [|eauto].
  destruct Hin as [->|Hin]; [exfalso; eapply Hbad; eassumption|].
  destruct (IH Hin) as (e & ->). simpl. eauto.
Qed.

(** The three modules carry the same [get_stage_details]. *)
Lemma get_stage_details_agree w name :
  LeadTimeForChange.get_stage_details w name = DeploymentFrequency.get_stage_details w name
  /\ MeanTimeToRestore.get_stage_details w name = DeploymentFrequency.get_stage_details w name.
Proof.
  unfold LeadTimeForChange.get_stage_details, MeanTimeToRestore.get_stage_details,
    DeploymentFrequency.get_stage_details.
  destruct (get_pipeline_state w name) as [response|e]; simpl;
    [|split; [reflexivity|destruct e; reflexivity]].
  destruct (has_key "stageStates" response) as [[|]|e]; simpl;
    [|split; reflexivity|split; [reflexivity|destruct e; reflexivity]].
  destruct (subscript response "stageStates") as [stages|e]; simpl;
    [|split; [reflexivity|destruct e; reflexivity]].
  destruct (iter stages) as [l|e]; simpl; [|split; [reflexivity|destruct e; reflexivity]].
  destruct (stage_summaries l) as [l'|e]; simpl;
    split; try reflexivity; destruct e; reflexivity.
Qed.

(** X11. [get_stage_details] gives all or nothing. When [get_pipeline_state]
    answers a list of stage states, the result is either one
    [{"name", "status"}] entry per stage, in the order of the answer, or
    [None]; and it is [None] as soon as one stage has no [latestExecution]
    with a [status] (a stage that has not run yet), whatever the other
    stages report. The three modules' copies of the function agree. *)
Theorem stage_details_all_or_nothing
        (w : World) (pipeline_name : value) (answer : list (string * value))
        (stages : list value) :
  get_pipeline_state w pipeline_name = Ok (VDict answer) ->
  lookup "stageStates" answer = Some (VList stages) ->
  (DeploymentFrequency.get_stage_details w pipeline_name
   = (Return VNone, [CallGetPipelineState pipeline_name])
   \/ exists summaries,
       DeploymentFrequency.get_stage_details w pipeline_name
       = (Return (VList summaries), [CallGetPipelineState pipeline_name])
       /\ length summaries = length stages
       /\ forall i stage,
           nth_error stages i = Some stage ->
           exists name latest status,
             subscript stage "stageName" = Ok name
             /\ subscript stage "latestExecution" = Ok latest
             /\ subscript latest "status" = Ok status
             /\ nth_error summaries i = Some (VDict [("name", name); ("status", status)]))
  /\ (forall stage,
         In stage stages ->
         (forall latest status,
             subscript stage "latestExecution" = Ok latest ->
             subscript latest "status" <> Ok status) ->
         DeploymentFrequency.get_stage_details w pipeline_name
         = (Return VNone, [CallGetPipelineState pipeline_name]))
  /\ LeadTimeForChange.get_stage_details w pipeline_name
     = DeploymentFrequency.get_stage_details w pipeline_name
  /\ MeanTimeToRestore.get_stage_details w pipeline_name
     = DeploymentFrequency.get_stage_details w pipeline_name.
Proof.
  intros Hanswer Hstages.
  assert (Hrun : DeploymentFrequency.get_stage_details w pipeline_name
                 = match stage_summaries stages with
                   | Ok summaries => (Return (VList summaries), [CallGetPipelineState pipeline_name])
                   | Err _ => (Return VNone, [CallGetPipelineState pipeline_name])
                   end).
  { unfold DeploymentFrequency.get_stage_details. rewrite Hanswer. simpl.
    rewrite Hstages. simpl. destruct (stage_summaries stages); reflexivity. }
  split; [|split; [|apply get_stage_details_agree]].
  - rewrite Hrun. destruct (stage_summaries stages) as [summaries|e] eqn:E; [right|left; reflexivity].
    exists summaries. split; [reflexivity|]. apply stage_summaries_entries, E.
  - intros stage Hin Hbad. rewrite Hrun.
    destruct (stage_summaries_fails stages stage Hin Hbad) as (e & ->). reflexivity.
Qed.

Lemma stage_details_all_or_nothing_witness :
  DeploymentFrequency.get_stage_details
    (Scenario.with_state
       (VDict [("stageStates",
                VList [VDict [("stageName", VStr "Source");
                              ("latestExecution", VDict [("status", VStr "Succeeded")])];
                       VDict [("stageName", VStr "DeployPROD")]])]))
    (VStr "github-dora-test")
  = (Return VNone, [CallGetPipelineState (VStr "github-dora-test")]).
Proof.
  apply (proj1 (proj2 (stage_details_all_or_nothing
           (Scenario.with_state
              (VDict [("stageStates",
                       VList [VDict [("stageName", VStr "Source");
                                     ("latestExecution", VDict [("status", VStr "Succeeded")])];
                              VDict [("stageName", VStr "DeployPROD")]])]))
           (VStr "github-dora-test")
           [("stageStates",
             VList [VDict [("stageName", VStr "Source");
                           ("latestExecution", VDict [("status", VStr "Succeeded")])];
                    VDict [("stageName", VStr "DeployPROD")]])]
           [VDict [("stageName", VStr "Source");
                   ("latestExecution", VDict [("status", VStr "Succeeded")])];
            VDict [("stageName", VStr "DeployPROD")]]
           eq_refl eq_refl))
         (VDict [("stageName", VStr "DeployPROD")])).
  - right. left. reflexivity.
  - intros latest status H. discriminate H.
Defined.

(** ** The answers of the deployment-frequency handler *)

Lemma df_get_stage_details_calls w name :
  exists v, DeploymentFrequency.get_stage_details w name
            = (Return v, [CallGetPipelineState name]).
Proof.
  destruct (df_get_stage_details_shape w name) as (v & H & _). eauto.
Qed.

(** X2. The deployment-frequency handler always answers, with status 200 or
    500; it never raises. Its calls are, in this order, [get_pipeline],
    [get_pipeline_state] for the same pipeline name and at most one
    [put_metric_data]: the sample is sent only after both introspection
    calls, and an invocation that ends in status 500 has sent nothing. *)
Theorem deployment_frequency_calls (cfg : Config) (w : World) (event : value) :
  DeploymentFrequency.lambda_handler cfg w event
  = (Return (response 500 "Error processing the event"), [])
  \/ exists name,
      DeploymentFrequency.lambda_handler cfg w event
      = (Return (response 500 "Error processing the event"), [CallGetPipeline name])
      \/ DeploymentFrequency.lambda_handler cfg w event
         = (Return (response 500 "Error processing the event"),
            [CallGetPipeline name; CallGetPipelineState name])
      \/ DeploymentFrequency.lambda_handler cfg w event
         = (Return (response 200 "Deployment frequency metric updated successfully"),
            [CallGetPipeline name; CallGetPipelineState name])
      \/ DeploymentFrequency.lambda_handler cfg w event
         = (Return (response 200 "Deployment frequency metric updated successfully"),
            [CallGetPipeline name; CallGetPipelineState name;
             CallPutMetricData DeploymentFrequency.sample]).
Proof.
  unfold DeploymentFrequency.lambda_handler.
  destruct (json_dumps event); simpl; auto.
  destruct (subscript event "detail") as [detail|]; simpl; auto.
  destruct (subscript detail "state") as [state|]; simpl; auto.
  destruct (subscript detail "pipeline") as [name|]; simpl; auto.
  right. exists name.
  destruct (get_pipeline w name) as [details|]; simpl; auto.
  destruct (DeploymentFrequency.extract_branch_from_pipeline_details details)
    as [[[branch repo]|]|]; simpl; auto.
  destruct (df_get_stage_details_calls w name) as (sd & ->). simpl.
  destruct (in_env repo (app_repo_list cfg)) as [[|]|]; simpl; auto.
  - destruct (deploy_stage_success (app_prod_stage_name cfg) sd) as [[|]|]; simpl; auto.
    rewrite deployment_frequency_metric_eq. simpl. auto 6.
  - destruct (eq_str state "SUCCEEDED" && eq_str branch "master"); simpl; auto.
    rewrite deployment_frequency_metric_eq. simpl. auto 6.
Qed.

Lemma in_env_unset_quiet {B} (v : value) (f : bool -> M B) :
  quiet (bind (lift (in_env v None)) f).
Proof. destruct v; reflexivity. Qed.

(** X12. Without a release model nothing is published. When [app_repo_names]
    is not set in the environment, the test [repository_name in None]
    raises in every handler: the deployment-frequency handler answers 500
    on every event, and neither it nor the lead-time handler nor the
    mean-time-to-restore handler sends a sample. *)
Theorem no_release_model_no_sample (cfg : Config) (w : World) (event : value) :
  app_repo_list cfg = None ->
  (fst (DeploymentFrequency.lambda_handler cfg w event)
   = Return (response 500 "Error processing the event")
   /\ sinks (snd (DeploymentFrequency.lambda_handler cfg w event)) = [])
  /\ sinks (snd (LeadTimeForChange.lambda_handler cfg w event)) = []
  /\ sinks (snd (MeanTimeToRestore.lambda_handler cfg w event)) = [].
Proof.
  intros Hunset.
  pose proof (df_get_stage_details_quiet w) as Hdf.
  pose proof (lt_get_stage_details_quiet w) as Hlt.
  pose proof (mttr_get_stage_details_quiet w) as Hmttr.
  pose proof (query_athena_for_commits_quiet cfg w) as Hquery.
  pose proof (find_ops_item_quiet w) as Hfind.
  split; [split|split].
  - unfold DeploymentFrequency.lambda_handler.
    destruct (json_dumps event); simpl; auto.
    destruct (subscript event "detail") as [detail|]; simpl; auto.
    destruct (subscript detail "state") as [state|]; simpl; auto.
    destruct (subscript detail "pipeline") as [name|]; simpl; auto.
    destruct (get_pipeline w name) as [details|]; simpl; auto.
    destruct (DeploymentFrequency.extract_branch_from_pipeline_details details)
      as [[[branch repo]|]|]; simpl; auto.
    destruct (df_get_stage_details_calls w name) as (sd & ->). simpl.
    rewrite Hunset. destruct repo; reflexivity.
  - change (quiet (DeploymentFrequency.lambda_handler cfg w event)).
    unfold DeploymentFrequency.lambda_handler. rewrite Hunset.
    repeat first [apply in_env_unset_quiet | quiet_step].
  - change (quiet (LeadTimeForChange.lambda_handler cfg w event)).
    unfold LeadTimeForChange.lambda_handler, LeadTimeForChange.handler_body.
    rewrite Hunset.
    repeat first [apply in_env_unset_quiet | quiet_step].
  - change (quiet (MeanTimeToRestore.lambda_handler cfg w event)).
    unfold MeanTimeToRestore.lambda_handler, MeanTimeToRestore.after_pipeline_details.
    rewrite Hunset.
    repeat first [apply in_env_unset_quiet | quiet_step].
Qed.

Lemma no_release_model_no_sample_witness :
  (fst (DeploymentFrequency.lambda_handler
          (mkConfig (Some "main") (Some "DeployPROD") None None None None)
          (Scenario.with_pipeline "master" "web" "DeployPROD" "Succeeded")
          (Scenario.pipeline_event "SUCCEEDED" "web" "master" "Update"))
   = Return (response 500 "Error processing the event")
   /\ sinks (snd (DeploymentFrequency.lambda_handler
                    (mkConfig (Some "main") (Some "DeployPROD") None None None None)
                    (Scenario.with_pipeline "master" "web" "DeployPROD" "Succeeded")
                    (Scenario.pipeline_event "SUCCEEDED" "web" "master" "Update"))) = [])
  /\ sinks (snd (LeadTimeForChange.lambda_handler
                   (mkConfig (Some "main") (Some "DeployPROD") None None None None)
                   (Scenario.with_pipeline "master" "web" "DeployPROD" "Succeeded")
                   (Scenario.pipeline_event "SUCCEEDED" "web" "master" "Update"))) = []
  /\ sinks (snd (MeanTimeToRestore.lambda_handler
                   (mkConfig (Some "main") (Some "DeployPROD") None None None None)
                   (Scenario.with_pipeline "master" "web" "DeployPROD" "Succeeded")
                   (Scenario.pipeline_event "SUCCEEDED" "web" "master" "Update"))) = [].
Proof.
  apply (no_release_model_no_sample
           (mkConfig (Some "main") (Some "DeployPROD") None None None None)
           (Scenario.with_pipeline "master" "web" "DeployPROD" "Succeeded")
           (Scenario.pipeline_event "SUCCEEDED" "web" "master" "Update")).
  reflexivity.
Defined.

(** ** The mean-time-to-restore handler, step by step *)

Lemma mttr_lambda_handler_unfold cfg w event :
  MeanTimeToRestore.lambda_handler cfg w event
  = match restore_event_fields event with
    | Err e => (Raise e, [])
    | Ok (pipeline_name, state, repository_name, branch_name, commit_message) =>
        match get_pipeline w pipeline_name with
        | Ok _ =>
            let (o, t) := MeanTimeToRestore.after_pipeline_details
                            cfg w event pipeline_name state repository_name
                            branch_name commit_message in
            (o, CallGetPipeline pipeline_name :: t)
        | Err PipelineNotFoundException =>
            (Return (response 500 "Pipeline not found"), [CallGetPipeline pipeline_name])
        | Err e => (Raise e, [CallGetPipeline pipeline_name])
        end
    end.
Proof.
  unfold MeanTimeToRestore.lambda_handler, restore_event_fields.
  destruct (subscript event "detail") as [detail|]; simpl; [|reflexivity].
  destruct (subscript detail "pipeline") as [name|]; simpl; [|reflexivity].
  destruct (subscript detail "state") as [state|]; simpl; [|reflexivity].
  destruct (subscript detail "execution-trigger") as [trigger|]; simpl; [|reflexivity].
  destruct (subscript trigger "full-repository-name") as [repo|]; simpl; [|reflexivity].
  destruct (subscript trigger "branch-name") as [branch|]; simpl; [|reflexivity].
  destruct (subscript trigger "commit-message") as [message|]; simpl; [|reflexivity].
  destruct (get_pipeline w name) as [details|[]]; simpl; try reflexivity.
  destruct (MeanTimeToRestore.after_pipeline_details cfg w event name state repo branch message).
  reflexivity.
Qed.

(** X13. The mean-time-to-restore handler has no [try] of its own. An event
    that lacks one of the five fields it reads raises before any call is
    made. Of the failures of [get_pipeline], only "pipeline not found" is
    answered with status 500; every other exception of that call leaves the
    handler as it is. *)
Theorem restore_handler_failures (cfg : Config) (w : World) (event : value) :
  (forall e, restore_event_fields event = Err e ->
             MeanTimeToRestore.lambda_handler cfg w event = (Raise e, []))
  /\ (forall pipeline_name state repository_name branch_name commit_message e,
         restore_event_fields event
         = Ok (pipeline_name, state, repository_name, branch_name, commit_message) ->
         get_pipeline w pipeline_name = Err e ->
         MeanTimeToRestore.lambda_handler cfg w event
         = (match e with
            | PipelineNotFoundException => Return (response 500 "Pipeline not found")
            | _ => Raise e
            end, [CallGetPipeline pipeline_name])).
Proof.
  split.
  - intros e H. rewrite mttr_lambda_handler_unfold, H. reflexivity.
  - intros name state repo branch message e H Hget.
    rewrite mttr_lambda_handler_unfold, H, Hget. destruct e; reflexivity.
Qed.

Lemma restore_handler_failures_witness :
  MeanTimeToRestore.lambda_handler
    Scenario.cfg Scenario.silent
    (Scenario.pipeline_event "SUCCEEDED" "repo1" "main" "Update")
  = (Raise ClientError, [CallGetPipeline (VStr "github-dora-test")]).
Proof.
  apply (proj2 (restore_handler_failures
                  Scenario.cfg Scenario.silent
                  (Scenario.pipeline_event "SUCCEEDED" "repo1" "main" "Update"))
               (VStr "github-dora-test") (VStr "SUCCEEDED") (VStr "repo1") (VStr "main")
               (VStr "Update") ClientError); reflexivity.
Defined.




(** ** What the samples of a computation carry *)









Section RestoreValue.
Variable cfg : Config.
Variable w : World.



End RestoreValue.

Lemma subscript_int_truthy v i x : subscript_int v i = Ok x -> truthy v = true.
Proof.
  destruct v as [| | | |s|l| |]; simpl; try discriminate.
  - destruct s; [destruct i|]; simpl; [discriminate..|reflexivity].
  - destruct l; [destruct i|]; simpl; [discriminate..|reflexivity].
Qed.




(** ** The lead-time handler, sample by sample *)

Lemma lt_get_stage_details_shape w name :
  exists v, LeadTimeForChange.get_stage_details w name
            = (Return v, [CallGetPipelineState name]).
Proof.
  destruct (get_stage_details_agree w name) as [-> _]. apply df_get_stage_details_calls.
Qed.








(** ** Events that restore nothing *)



(** ** The calls of the mean-time-to-restore handler *)

Lemma find_ops_item_calls w event message :
  (exists e, MeanTimeToRestore.find_ops_item w event message = (Raise e, []))
  \/ exists reference,
      MeanTimeToRestore.extract_source_branch_name message = Ok reference
      /\ ((exists e, MeanTimeToRestore.find_ops_item w event message
                     = (Raise e, [CallDescribeOpsItems reference]))
          \/ exists final creation,
              MeanTimeToRestore.find_ops_item w event message
              = (Return (final, reference, creation), [CallDescribeOpsItems reference])).
Proof.
  unfold MeanTimeToRestore.find_ops_item.
  destruct (subscript event "time") as [final|]; simpl; [|eauto].
  destruct (MeanTimeToRestore.extract_source_branch_name message) as [reference|];
    simpl; [|eauto].
  right. exists reference. split; [reflexivity|].
  destruct (describe_ops_items w reference) as [ops_items|]; simpl; [|eauto].
  destruct (has_key "OpsItemSummaries" ops_items) as [[|]|]; simpl; eauto.
  destruct (subscript ops_items "OpsItemSummaries") as [summaries|]; simpl; [|eauto].
  destruct (truthy summaries); simpl; eauto.
  destruct (subscript_int summaries 0) as [item|]; simpl; [|eauto].
  destruct (subscript item "CreatedTime") as [created|]; simpl; eauto.
Qed.

(** X15. The calls of the mean-time-to-restore handler, in order: first
    [get_pipeline]; then, only for a SUCCEEDED event on the default branch,
    one [describe_ops_items] for the incident id of the commit message;
    then [get_pipeline_state] for the same pipeline; last, at most one
    [put_metric_data]. A sample is sent only after OpsCenter has been asked,
    and the invocation that sent one answers with status 200. *)
Theorem restore_handler_calls (cfg : Config) (w : World) (event : value) :
  snd (MeanTimeToRestore.lambda_handler cfg w event) = []
  \/ exists pipeline_name state repository_name branch_name commit_message,
      restore_event_fields event
      = Ok (pipeline_name, state, repository_name, branch_name, commit_message)
      /\ (snd (MeanTimeToRestore.lambda_handler cfg w event) = [CallGetPipeline pipeline_name]
          \/ (restores cfg branch_name state = false
              /\ snd (MeanTimeToRestore.lambda_handler cfg w event)
                 = [CallGetPipeline pipeline_name; CallGetPipelineState pipeline_name])
          \/ exists incident_id,
              restores cfg branch_name state = true
              /\ MeanTimeToRestore.extract_source_branch_name commit_message = Ok incident_id
              /\ (snd (MeanTimeToRestore.lambda_handler cfg w event)
                  = [CallGetPipeline pipeline_name; CallDescribeOpsItems incident_id]
                  \/ snd (MeanTimeToRestore.lambda_handler cfg w event)
                     = [CallGetPipeline pipeline_name; CallDescribeOpsItems incident_id;
                        CallGetPipelineState pipeline_name]
                  \/ exists downtime_seconds,
                      MeanTimeToRestore.lambda_handler cfg w event
                      = (Return (response 200 "Mean time to restore metric updated successfully"),
                         [CallGetPipeline pipeline_name; CallDescribeOpsItems incident_id;
                          CallGetPipelineState pipeline_name;
                          CallPutMetricData (MeanTimeToRestore.sample downtime_seconds)]))).
Proof.
  rewrite mttr_lambda_handler_unfold.
  destruct (restore_event_fields event) as [[[[[name state] repo] branch] message]|];
    [|left; reflexivity].
  right. exists name, state, repo, branch, message. split; [reflexivity|].
  destruct (get_pipeline w name) as [details|e]; [|left; destruct e; reflexivity].
  unfold MeanTimeToRestore.after_pipeline_details.
  fold (restores cfg branch state).
  destruct (mttr_get_stage_details_shape w name) as (sd & Hsd).
  destruct (restores cfg branch state).
  - destruct (find_ops_item_calls w event message)
      as [(e & ->)|(reference & Hid & [(e & ->)|(final & creation & ->)])].
    + left. reflexivity.
    + right. right. exists reference. repeat split; [exact Hid|]. left. reflexivity.
    + right. right. exists reference. repeat split; [exact Hid|].
      cbn [bind ret app]. rewrite Hsd. cbn [bind app].
      destruct (in_env repo (app_repo_list cfg)) as [[|]|]; cbn [bind lift ret raise app];
        [|  |right; left; reflexivity].
      * destruct (deploy_stage_success (app_prod_stage_name cfg) sd) as [[|]|];
          cbn [bind lift ret raise app]; [|right; left; reflexivity..].
        destruct (MeanTimeToRestore.calculate_downtime w creation final) as [d|];
          cbn [bind lift ret raise app]; [|right; left; reflexivity].
        destruct (truthy (VFloat d));
          cbn [bind lift ret raise app MeanTimeToRestore.read_local];
          [|right; left; reflexivity].
        rewrite send_to_cloudwatch_eq. right. right. exists d. reflexivity.
      * destruct (MeanTimeToRestore.calculate_downtime w creation final) as [d|];
          cbn [bind lift ret raise app MeanTimeToRestore.read_local];
          [|right; left; reflexivity].
        rewrite send_to_cloudwatch_eq. right. right. exists d. reflexivity.
  - right. left. split; [reflexivity|].
    cbn [bind ret app]. rewrite Hsd. cbn [bind app].
    destruct (in_env repo (app_repo_list cfg)) as [[|]|]; cbn [bind lift ret raise app];
      [|reflexivity..].
    destruct (deploy_stage_success (app_prod_stage_name cfg) sd) as [[|]|];
      cbn [bind lift ret raise app]; reflexivity.
Qed.

(** ** Reading the result of the query *)

Lemma fetch_result_first_data_cell w execution_id v :
  truthy v = true ->
  first_data_cell w execution_id v ->
  LeadTimeForChange.fetch_result w execution_id
  = (Return v, [CallGetQueryResults execution_id]).
Proof.
  intros Hv (result & result_set & rows & row & data & cell
             & Hresult & Hset & Hrows & Hrow & Hdata & Hcell & Htext).
  unfold LeadTimeForChange.fetch_result.
  rewrite Hresult; cbn [call_ext bind app]. rewrite Hset; cbn [lift ret bind app].
  rewrite Hrows; cbn [lift ret bind app].
  destruct rows as [| | | |s|l| |]; try discriminate Hrow.
  - simpl in Hrow. destruct s as [|c [|c' s]]; try discriminate Hrow.
    simpl in Hrow. injection Hrow as <-. discriminate Hdata.
  - simpl in Hrow. destruct l as [|header [|row' l]]; try discriminate Hrow.
    simpl in Hrow. injection Hrow as ->.
    cbn [slice_from_1 tl lift ret bind app truthy subscript_int nth_error].
    rewrite Hdata; cbn [lift ret bind app].
    rewrite (subscript_int_truthy _ _ _ Hcell). rewrite Hcell; cbn [lift ret bind app].
    destruct cell as [| | | | | |d|]; try discriminate Htext.
    simpl in Htext. cbn [dict_get subscript lift ret bind app].
    destruct (lookup "VarCharValue" d) as [x|]; [|discriminate Htext].
    injection Htext as ->. rewrite Hv. reflexivity.
Qed.

Ltac fetch_done := solve [eexists; split; [reflexivity|simpl; auto]].

Lemma fetch_result_answer w execution_id :
  exists o, LeadTimeForChange.fetch_result w execution_id
            = (o, [CallGetQueryResults execution_id])
            /\ match o with
               | Return v => v = VNone \/ (truthy v = true /\ first_data_cell w execution_id v)
               | Raise _ => True
               | Exit _ => False
               end.
Proof.
  unfold LeadTimeForChange.fetch_result, first_data_cell.
  destruct (get_query_results w execution_id) as [result|]; simpl; [|fetch_done].
  destruct (subscript result "ResultSet") as [result_set|] eqn:Hset; simpl; [|fetch_done].
  destruct (subscript result_set "Rows") as [rows|] eqn:Hrows; simpl; [|fetch_done].
  destruct (slice_from_1 rows) as [tail|]; simpl; [|fetch_done].
  destruct (truthy tail); simpl; [|fetch_done].
  destruct (subscript_int rows 1) as [row|] eqn:Hrow; simpl; [|fetch_done].
  destruct (subscript row "Data") as [data|] eqn:Hdata; simpl; [|fetch_done].
  destruct (truthy data); simpl; [|fetch_done].
  destruct (subscript_int data 0) as [cell|] eqn:Hcell; simpl; [|fetch_done].
  destruct (dict_get cell "VarCharValue") as [text|] eqn:Hget; simpl; [|fetch_done].
  destruct (truthy text) eqn:Htext; simpl; [|fetch_done].
  destruct (subscript cell "VarCharValue") as [v|] eqn:Hv; simpl; [|fetch_done].
  eexists. split; [reflexivity|]. right.
  assert (v = text) as ->.
  { destruct cell; try discriminate Hv. simpl in Hv, Hget.
    destruct (lookup "VarCharValue" d); [|discriminate Hv]. congruence. }
  split; [exact Htext|]. exists result, result_set, rows, row, data, cell. auto 8.
Qed.

(** X17. A query that Athena reports as SUCCEEDED within the 300 seconds is
    read once and the client always returns, whatever the result looks
    like: the value of the first cell of the first data row when that value
    is there and not empty, and [None] in every other case (no data row, no
    cell, no value, a malformed result, a failing [get_query_results]). *)
Theorem succeeded_query_reads_first_data_cell
        (cfg : Config) (w : World) (commit_id repository_name : value)
        (response execution_id query_status : value) :
  start_query_execution w cfg commit_id repository_name = Ok response ->
  subscript response "QueryExecutionId" = Ok execution_id ->
  get_query_execution w execution_id = Ok query_status ->
  LeadTimeForChange.query_state query_status = Ok (VStr "SUCCEEDED") ->
  (time_at_check w - time_at_start w <= 300)%Q ->
  (exists v,
      LeadTimeForChange.query_athena_for_commits cfg w commit_id repository_name
      = (Return v, [CallStartQueryExecution commit_id repository_name;
                    CallGetQueryExecution execution_id;
                    CallGetQueryResults execution_id])
      /\ (v = VNone \/ (truthy v = true /\ first_data_cell w execution_id v)))
  /\ (forall v,
         truthy v = true -> first_data_cell w execution_id v ->
         fst (LeadTimeForChange.query_athena_for_commits cfg w commit_id repository_name)
         = Return v).
Proof.
  intros Hstart Hid Hstatus Hstate Htime.
  assert (Hrun : LeadTimeForChange.query_athena_for_commits cfg w commit_id repository_name
                 = let (o, t) :=
                     try_except (LeadTimeForChange.fetch_result w execution_id)
                                (fun _ => ret VNone) in
                   (o, [CallStartQueryExecution commit_id repository_name;
                        CallGetQueryExecution execution_id] ++ t)%list).
  { unfold LeadTimeForChange.query_athena_for_commits.
    rewrite Hstart; cbn [call_ext bind app]. rewrite Hid; cbn [lift ret bind app].
    rewrite Hstatus; cbn [call_ext bind app]. rewrite Hstate; cbn [lift ret bind app].
    apply Qle_bool_iff in Htime. unfold LeadTimeForChange.timeout. rewrite Htime.
    cbn [eq_str String.eqb Ascii.eqb Bool.eqb negb andb ret bind app].
    destruct (try_except (LeadTimeForChange.fetch_result w execution_id)
                         (fun _ => ret VNone)) as [o t].
    reflexivity. }
  rewrite Hrun. split.
  - destruct (fetch_result_answer w execution_id) as (o & -> & Ho).
    destruct o as [v|e|c]; [|  |destruct Ho].
    + exists v. split; [reflexivity|exact Ho].
    + exists VNone. split; [reflexivity|left; reflexivity].
  - intros v Hv Hcell. rewrite (fetch_result_first_data_cell w execution_id v Hv Hcell).
    reflexivity.
Qed.

Lemma succeeded_query_reads_first_data_cell_witness :
  fst (LeadTimeForChange.query_athena_for_commits
         Scenario.cfg (Scenario.with_athena "SUCCEEDED" "2023-01-01T00:00:00Z" 0)
         (VStr "abc123") (VStr "repo1"))
  = Return (VStr "2023-01-01T00:00:00Z").
Proof.
  apply (proj2 (succeeded_query_reads_first_data_cell
                  Scenario.cfg (Scenario.with_athena "SUCCEEDED" "2023-01-01T00:00:00Z" 0)
                  (VStr "abc123") (VStr "repo1")
                  (VDict [("QueryExecutionId", VStr "1234-5678-91011")])
                  (VStr "1234-5678-91011") (Scenario.query_status "SUCCEEDED")
                  eq_refl eq_refl eq_refl eq_refl ltac:(discriminate))
               (VStr "2023-01-01T00:00:00Z") eq_refl).
  exists (Scenario.query_results "2023-01-01T00:00:00Z"),
    (VDict [("Rows", VList [
       VDict [("Data", VList [VDict [("VarCharValue", VStr "earliest_commit_time")]])];
       VDict [("Data", VList [VDict [("VarCharValue", VStr "2023-01-01T00:00:00Z")]])]])]),
    (VList [
       VDict [("Data", VList [VDict [("VarCharValue", VStr "earliest_commit_time")]])];
       VDict [("Data", VList [VDict [("VarCharValue", VStr "2023-01-01T00:00:00Z")]])]]),
    (VDict [("Data", VList [VDict [("VarCharValue", VStr "2023-01-01T00:00:00Z")]])]),
    (VList [VDict [("VarCharValue", VStr "2023-01-01T00:00:00Z")]]),
    (VDict [("VarCharValue", VStr "2023-01-01T00:00:00Z")]).
  repeat split; reflexivity.
Defined.

(** ** Times that cannot be read *)

(** X18. When the Athena query returns no commit time the parser can read
    ([None] included), or the time of the event cannot be read, the
    lead-time handler stops there: it answers [{"status": "success"}]
    having made only the calls of the query. CodePipeline is not asked and
    nothing is published. *)
Theorem unread_times_end_the_invocation
        (cfg : Config) (w : World)
        (event pipeline_name commit_id repository_name pipeline_event_time : value)
        (earliest_commit_time : value) (calls : list call) :
  LeadTimeForChange.read_event event
  = Ok (pipeline_name, commit_id, repository_name, pipeline_event_time) ->
  LeadTimeForChange.query_athena_for_commits cfg w commit_id repository_name
  = (Return earliest_commit_time, calls) ->
  ((exists e, LeadTimeForChange.parse_value w earliest_commit_time = Err e)
   \/ exists e, LeadTimeForChange.parse_value w pipeline_event_time = Err e) ->
  LeadTimeForChange.lambda_handler cfg w event = (Return LeadTimeForChange.success, calls).
Proof.
  intros Hread Hq Hunread.
  assert (Hnone : LeadTimeForChange.calculate_lead_time
                    w earliest_commit_time pipeline_event_time repository_name = None).
  { unfold LeadTimeForChange.calculate_lead_time.
    destruct Hunread as [(e & H)|(e & H)]; rewrite H;
      try reflexivity; destruct (LeadTimeForChange.parse_value w pipeline_event_time);
      reflexivity. }
  assert (Hjson : json_dumps event = Ok tt).
  { unfold LeadTimeForChange.read_event in Hread.
    destruct (json_dumps event) as [[]|]; [reflexivity|discriminate Hread]. }
  unfold LeadTimeForChange.lambda_handler, LeadTimeForChange.handler_body.
  rewrite Hread. cbn [lift ret bind app]. rewrite Hq. cbn [bind app].
  rewrite Hnone. cbn [LeadTimeForChange.unpack_times lift raise bind try_except app].
  rewrite Hjson. cbn [lift ret bind app]. rewrite !app_nil_r. reflexivity.
Qed.

Lemma unread_times_end_the_invocation_witness :
  LeadTimeForChange.lambda_handler
    Scenario.cfg (Scenario.with_athena "RUNNING" "2023-01-01T00:00:00Z" 0)
    (Scenario.pipeline_event "SUCCEEDED" "repo1" "main" "Update")
  = (Return LeadTimeForChange.success,
     [CallStartQueryExecution (VStr "abc123") (VStr "repo1");
      CallGetQueryExecution (VStr "1234-5678-91011");
      CallSleep 10]).
Proof.
  apply (unread_times_end_the_invocation
           Scenario.cfg (Scenario.with_athena "RUNNING" "2023-01-01T00:00:00Z" 0)
           (Scenario.pipeline_event "SUCCEEDED" "repo1" "main" "Update")
           (VStr "github-dora-test") (VStr "abc123") (VStr "repo1")
           (VStr "2023-01-01T01:00:00Z") VNone); try reflexivity.
  left. exists TypeError. reflexivity.
Defined.

(** ** The Kinesis data transformation *)

Lemma transform_ok decode record output :
  KinesisDataTransformation.transform decode record = Ok output ->
  transformed decode record output /\ answerable decode record.
Proof.
  unfold KinesisDataTransformation.transform, KinesisDataTransformation.output_record,
    transformed, answerable.
  destruct (subscript record "data") as [data|e] eqn:Hdata; cbn [rbind].
  - destruct (decode data) as [v|e] eqn:Hdecode; cbn [rbind].
    + destruct (subscript record "recordId") as [id|e]; cbn [rbind].
      * intros H. injection H as <-. split; exists id, data; repeat split; auto.
        -- rewrite Hdecode. reflexivity.
        -- intros e He. rewrite Hdecode in He. discriminate He.
      * destruct (KinesisDataTransformation.caught e); discriminate.
    + destruct (KinesisDataTransformation.caught e) eqn:Hcaught; [|discriminate].
      destruct (subscript record "recordId") as [id|e']; cbn [rbind]; [|discriminate].
      intros H. injection H as <-. split; exists id, data; repeat split; auto.
      * rewrite Hdecode. reflexivity.
      * intros e' He. rewrite Hdecode in He. injection He as <-. exact Hcaught.
  - destruct (KinesisDataTransformation.caught e); [|discriminate].
    destruct (subscript record "recordId"); cbn [rbind]; discriminate.
Qed.

Lemma transform_answerable decode record :
  answerable decode record ->
  exists output, KinesisDataTransformation.transform decode record = Ok output.
Proof.
  intros (id & data & Hid & Hdata & Hcaught).
  unfold KinesisDataTransformation.transform, KinesisDataTransformation.output_record.
  rewrite Hdata. cbn [rbind].
  destruct (decode data) as [v|e]; cbn [rbind].
  - rewrite Hid. cbn [rbind]. eauto.
  - rewrite (Hcaught e eq_refl), Hid. cbn [rbind]. eauto.
Qed.

Lemma transform_all_ok decode records : forall outputs,
  KinesisDataTransformation.transform_all decode records = Ok outputs ->
  Forall2 (transformed decode) records outputs /\ Forall (answerable decode) records.
Proof.
  induction records as [|record rest IH]; intros outputs; cbn [KinesisDataTransformation.transform_all].
  - intros H. injection H as <-. split; constructor.
  - destruct (KinesisDataTransformation.transform decode record) as [output|] eqn:Hone;
      cbn [rbind]; [|discriminate].
    destruct (KinesisDataTransformation.transform_all decode rest) as [tail|];
      cbn [rbind]; [|discriminate].
    intros H. injection H as <-.
    destruct (transform_ok _ _ _ Hone) as [Ht Ha].
    destruct (IH tail eq_refl) as [IHt IHa].
    split; constructor; assumption.
Qed.

Lemma transform_all_answerable decode records :
  Forall (answerable decode) records ->
  exists outputs, KinesisDataTransformation.transform_all decode records = Ok outputs.
Proof.
  induction 1 as [|record rest Hrecord _ (tail & IH)];
    cbn [KinesisDataTransformation.transform_all]; [eauto|].
  destruct (transform_answerable _ _ Hrecord) as (output & ->).
  rewrite IH. cbn [rbind]. eauto.
Qed.

(** X19. The transformation answers record by record. When the handler
    returns, its answer holds one output record per input record, in the
    order of the input; each carries the [recordId] and the [data] of its
    input record unchanged, with result "Ok" when the data decodes
    (base64, then UTF-8, then JSON) and "ProcessingFailed" when it does
    not. *)
Theorem transformation_answers_record_by_record
        (decode : value -> res value) (event answer : value) :
  KinesisDataTransformation.lambda_handler decode event = Ok answer ->
  exists batch records outputs,
    subscript event "records" = Ok batch
    /\ iter batch = Ok records
    /\ answer = VDict [("records", VList outputs)]
    /\ length outputs = length records
    /\ forall i record,
        nth_error records i = Some record ->
        exists output, nth_error outputs i = Some output /\ transformed decode record output.
Proof.
  unfold KinesisDataTransformation.lambda_handler.
  destruct (subscript event "records") as [batch|]; cbn [rbind]; [|discriminate].
  destruct (iter batch) as [records|] eqn:Hiter; cbn [rbind]; [|discriminate].
  destruct (KinesisDataTransformation.transform_all decode records) as [outputs|] eqn:Hall;
    cbn [rbind]; [|discriminate].
  intros H. injection H as <-.
  exists batch, records, outputs.
  split; [reflexivity|]. split; [exact Hiter|]. split; [reflexivity|]. split.
  - symmetry. eapply Forall2_length. apply (transform_all_ok _ _ _ Hall).
  - destruct (transform_all_ok _ _ _ Hall) as [Hall2 _]. clear Hall Hiter.
    induction Hall2 as [|record output rest tail Hone _ IH]; intros [|i] r Hr;
      simpl in Hr; try discriminate Hr.
    + injection Hr as <-. exists output. split; [reflexivity|exact Hone].
    + simpl. apply IH, Hr.
Qed.

Lemma transformation_answers_record_by_record_witness :
  exists batch records outputs,
    subscript (VDict [("records", VList [VDict [("recordId", VStr "1");
                                                ("data", VStr "%%%")]])]) "records"
    = Ok batch
    /\ iter batch = Ok records
    /\ VDict [("records", VList [VDict [("recordId", VStr "1"); ("result", VStr "ProcessingFailed");
                                        ("data", VStr "%%%")]])]
       = VDict [("records", VList outputs)]
    /\ length outputs = length records
    /\ forall i record,
        nth_error records i = Some record ->
        exists output, nth_error outputs i = Some output
                       /\ transformed (fun _ => Err ValueError) record output.
Proof.
  apply (transformation_answers_record_by_record
           (fun _ => Err ValueError)
           (VDict [("records", VList [VDict [("recordId", VStr "1");
                                             ("data", VStr "%%%")]])])).
  reflexivity.
Defined.

(** X20. One record can fail the whole batch. The handler returns exactly
    when the event has an iterable "records" and every record has a
    "recordId" and a "data" whose decoding returns or raises [ValueError] or
    [TypeError]; a single record without one of its two fields makes the
    invocation raise, and no record is answered. *)
Theorem transformation_returns_iff (decode : value -> res value) (event : value) :
  (exists answer, KinesisDataTransformation.lambda_handler decode event = Ok answer)
  <-> exists batch records,
      subscript event "records" = Ok batch
      /\ iter batch = Ok records
      /\ Forall (answerable decode) records.
Proof.
  unfold KinesisDataTransformation.lambda_handler. split.
  - intros (answer & H).
    destruct (subscript event "records") as [batch|]; cbn [rbind] in H; [|discriminate].
    destruct (iter batch) as [records|] eqn:Hiter; cbn [rbind] in H; [|discriminate].
    destruct (KinesisDataTransformation.transform_all decode records) as [outputs|] eqn:Hall;
      cbn [rbind] in H; [|discriminate].
    exists batch, records. split; [reflexivity|]. split; [exact Hiter|].
    apply (transform_all_ok _ _ _ Hall).
  - intros (batch & records & Hbatch & Hiter & Hall).
    rewrite Hbatch. cbn [rbind]. rewrite Hiter. cbn [rbind].
    destruct (transform_all_answerable _ _ Hall) as (outputs & ->). cbn [rbind]. eauto.
Qed.

(** ** The verification of the GitHub signature *)

Lemma compare_digest_true a b : compare_digest a b = Ok true -> a = b.
Proof.
  unfold compare_digest. destruct (is_ascii a && is_ascii b); [|discriminate].
  intros H. injection H as H. apply String.eqb_eq, H.
Qed.

Lemma signature_value_ok signature_header signature :
  GithubSignatureVerification.signature_value signature_header = Ok signature ->
  exists s, signature_header = VStr s /\ nth_error (split_on "=" s) 1 = Some signature.
Proof.
  unfold GithubSignatureVerification.signature_value.
  destruct signature_header as [| | | |s| | |]; try discriminate.
  destruct (nth_error (split_on "=" s) 1) as [part|] eqn:Hpart; [|discriminate].
  intros H. injection H as <-. exists s. split; [reflexivity|exact Hpart].
Qed.

Lemma encode_ok v s : GithubSignatureVerification.encode v = Ok s -> v = VStr s.
Proof. destruct v; try discriminate. intros H. injection H as <-. reflexivity. Qed.

(** What the handler has established when it decides to forward. *)
Lemma check_forward srv github_secret event parsed_url body headers :
  GithubSignatureVerification.check srv github_secret event
  = Ok (GithubSignatureVerification.Forward parsed_url body headers) ->
  (exists secret, github_secret = VStr secret /\ signed_with srv secret event)
  /\ exists payload request_context domain_name stage,
      dict_get event "headers" = Ok headers
      /\ dict_get event "body" = Ok payload
      /\ body = GithubSignatureVerification.dumps srv payload
      /\ subscript event "requestContext" = Ok request_context
      /\ subscript request_context "domainName" = Ok domain_name
      /\ subscript request_context "stage" = Ok stage
      /\ GithubSignatureVerification.urlparse
           srv ("https://" ++ GithubSignatureVerification.str_of srv domain_name
                ++ "/" ++ GithubSignatureVerification.str_of srv stage)
         = Ok parsed_url
      /\ in_list (GithubSignatureVerification.scheme parsed_url) ["http"; "https"] = true.
Proof.
  unfold GithubSignatureVerification.check.
  destruct (dict_get event "headers") as [headers'|] eqn:Hheaders; cbn [rbind]; [|discriminate].
  destruct (dict_get headers' "X-Hub-Signature-256") as [header|] eqn:Hheader;
    cbn [rbind]; [|discriminate].
  destruct (truthy header); cbn [negb]; [|discriminate].
  destruct (GithubSignatureVerification.signature_value header) as [signature|] eqn:Hsig;
    cbn [rbind]; [|discriminate].
  destruct (dict_get event "body") as [payload|] eqn:Hbody; cbn [rbind]; [|discriminate].
  destruct (json_dumps payload); cbn [rbind]; [|discriminate].
  unfold GithubSignatureVerification.verify_signature.
  destruct (GithubSignatureVerification.encode github_secret) as [key|] eqn:Hkey;
    cbn [rbind]; [|discriminate].
  destruct (GithubSignatureVerification.encode payload) as [msg|] eqn:Hmsg;
    cbn [rbind]; [|discriminate].
  destruct (compare_digest (GithubSignatureVerification.hexdigest srv key msg) signature)
    as [[|]|] eqn:Hdigest; cbn [rbind negb]; [|discriminate..].
  destruct (subscript event "requestContext") as [context|] eqn:Hcontext;
    cbn [rbind]; [|discriminate].
  destruct (subscript context "domainName") as [domain|] eqn:Hdomain;
    cbn [rbind]; [|discriminate].
  destruct (subscript context "stage") as [stage|] eqn:Hstage; cbn [rbind]; [|discriminate].
  unfold GithubSignatureVerification.validate_url.
  destruct (GithubSignatureVerification.urlparse srv _) as [parsed|e] eqn:Hparse;
    cbn [rbind]; [|destruct e; discriminate].
  destruct (in_list (GithubSignatureVerification.scheme parsed) ["http"; "https"]) eqn:Hscheme;
    cbn [negb]; [|discriminate].
  intros H. injection H as <- <- <-.
  apply encode_ok in Hkey, Hmsg. subst.
  apply signature_value_ok in Hsig. destruct Hsig as (s & -> & Hpart).
  apply compare_digest_true in Hdigest.
  split.
  - exists key. split; [reflexivity|].
    exists headers', s, signature, msg. auto.
  - exists (VStr msg), context, domain, stage. auto 10.
Qed.

Lemma lambda_handler_post srv event netloc path body headers :
  In (GithubSignatureVerification.Post netloc path body headers)
     (snd (GithubSignatureVerification.lambda_handler srv event)) ->
  exists github_secret parsed_url event_headers,
    GithubSignatureVerification.get_secret srv = Ok github_secret
    /\ GithubSignatureVerification.check srv github_secret event
       = Ok (GithubSignatureVerification.Forward parsed_url body event_headers)
    /\ netloc = GithubSignatureVerification.netloc parsed_url
    /\ path = (GithubSignatureVerification.path parsed_url ++ "/firehose")%string
    /\ set_item event_headers "Content-Type" (VStr "application/json") = Ok headers.
Proof.
  unfold GithubSignatureVerification.lambda_handler.
  destruct (GithubSignatureVerification.get_secret srv) as [secret|] eqn:Hsecret;
    [|intros [H|[]]; discriminate H].
  destruct (GithubSignatureVerification.check srv secret event) as [[answer|parsed b h]|]
    eqn:Hcheck; try (intros [H|[]]; discriminate H).
  unfold GithubSignatureVerification.forward.
  destruct (GithubSignatureVerification.connection
              srv (GithubSignatureVerification.netloc parsed)) as [[]|];
    cbn [rbind]; [|intros [H|[]]; discriminate H].
  destruct (set_item h "Content-Type" (VStr "application/json")) as [h'|] eqn:Hset;
    [|intros [H|[]]; discriminate H].
  intros [H|[H|[]]]; [discriminate H|]. injection H as <- <- <- <-.
  exists secret, parsed, h. auto 8.
Qed.

(** X21. Nothing is forwarded without a valid signature. Whenever the
    handler sends a request on, it has fetched a secret that is a [str],
    and the part of the event's "X-Hub-Signature-256" header between its
    first and second "=" equals the hex digest of the event's body under
    that secret. *)
Theorem forwarding_requires_valid_signature
        (srv : GithubSignatureVerification.Services) (event : value)
        (netloc path body : string) (headers : value) :
  In (GithubSignatureVerification.Post netloc path body headers)
     (snd (GithubSignatureVerification.lambda_handler srv event)) ->
  exists secret,
    GithubSignatureVerification.get_secret srv = Ok (VStr secret)
    /\ signed_with srv secret event.
Proof.
  intros H. apply lambda_handler_post in H.
  destruct H as (github_secret & parsed & h & Hsecret & Hcheck & _).
  apply check_forward in Hcheck. destruct Hcheck as [(secret & -> & Hsigned) _].
  exists secret. auto.
Qed.

(** X22. What is forwarded comes from the event. The request goes to the
    host that [urlparse] finds in "https://<domainName>/<stage>", built
    from the event's own request context, on that URL's path followed by
    "/firehose"; its body is the JSON text of the event's body; its headers
    are the event's, with "Content-Type" set to "application/json". *)
Theorem forwarded_request_comes_from_the_event
        (srv : GithubSignatureVerification.Services) (event : value)
        (netloc path body : string) (headers : value) :
  In (GithubSignatureVerification.Post netloc path body headers)
     (snd (GithubSignatureVerification.lambda_handler srv event)) ->
  exists event_headers payload request_context domain_name stage parsed_url,
    dict_get event "headers" = Ok event_headers
    /\ set_item event_headers "Content-Type" (VStr "application/json") = Ok headers
    /\ dict_get event "body" = Ok payload
    /\ body = GithubSignatureVerification.dumps srv payload
    /\ subscript event "requestContext" = Ok request_context
    /\ subscript request_context "domainName" = Ok domain_name
    /\ subscript request_context "stage" = Ok stage
    /\ GithubSignatureVerification.urlparse
         srv ("https://" ++ GithubSignatureVerification.str_of srv domain_name
              ++ "/" ++ GithubSignatureVerification.str_of srv stage)
       = Ok parsed_url
    /\ netloc = GithubSignatureVerification.netloc parsed_url
    /\ path = (GithubSignatureVerification.path parsed_url ++ "/firehose")%string.
Proof.
  intros H. apply lambda_handler_post in H.
  destruct H as (github_secret & parsed & h & Hsecret & Hcheck & -> & -> & Hset).
  apply check_forward in Hcheck.
  destruct Hcheck as [_ (payload & context & domain & stage
                         & Hh & Hb & -> & Hc & Hd & Hs & Hp & _)].
  exists h, payload, context, domain, stage, parsed. auto 12.
Qed.

Lemma split_on_second_part sep s part :
  nth_error (split_on sep s) 1 = Some part -> s <> EmptyString.
Proof. intros H ->. discriminate H. Qed.

Lemma compare_digest_neq a b :
  is_ascii a = true -> is_ascii b = true -> a <> b -> compare_digest a b = Ok false.
Proof.
  intros Ha Hb Hneq. unfold compare_digest. rewrite Ha, Hb. cbn [andb].
  destruct (String.eqb a b) eqn:E; [|reflexivity].
  apply String.eqb_eq in E. contradiction.
Qed.

Lemma truthy_str s : s <> EmptyString -> truthy (VStr s) = true.
Proof. destruct s; [contradiction|reflexivity]. Qed.

Lemma compare_digest_not_ascii a b :
  is_ascii a && is_ascii b = false -> compare_digest a b = Err TypeError.
Proof. intros H. unfold compare_digest. rewrite H. reflexivity. Qed.

(** X23. The refusals of the signature check, and where it raises instead.
    When the secret cannot be fetched the handler answers 500 without
    reading the event. With a secret, a delivery whose
    "X-Hub-Signature-256" header is missing or empty is answered 403
    "Missing signature header". A delivery is answered 403 "Invalid
    signature" when the secret and the body are [str], the header is a
    [str] with a part after its first "=", that part and the digest are
    ASCII, and the two differ. Outside these conditions the handler raises
    and answers nothing: [IndexError] for a header without "=",
    [AttributeError] for a header that is not a [str], for a body that is
    not a [str] and for a secret that is not a [str], [TypeError] for a
    signature or a digest with a character outside ASCII. In every case the
    fetch of the secret is the only call made. *)
Theorem unsigned_deliveries_are_refused
        (srv : GithubSignatureVerification.Services) (event : value) :
  (forall e,
      GithubSignatureVerification.get_secret srv = Err e ->
      GithubSignatureVerification.lambda_handler srv event
      = (Ok (response 500 "Internal Server Error: Secret not fetched"),
         [GithubSignatureVerification.GetSecretValue]))
  /\ (forall github_secret headers signature_header,
         GithubSignatureVerification.get_secret srv = Ok github_secret ->
         dict_get event "headers" = Ok headers ->
         dict_get headers "X-Hub-Signature-256" = Ok signature_header ->
         truthy signature_header = false ->
         GithubSignatureVerification.lambda_handler srv event
         = (Ok (response 403 "Forbidden: Missing signature header"),
            [GithubSignatureVerification.GetSecretValue]))
  /\ (forall secret headers signature_header signature body,
         GithubSignatureVerification.get_secret srv = Ok (VStr secret) ->
         dict_get event "headers" = Ok headers ->
         dict_get headers "X-Hub-Signature-256" = Ok (VStr signature_header) ->
         nth_error (split_on "=" signature_header) 1 = Some signature ->
         dict_get event "body" = Ok (VStr body) ->
         is_ascii signature = true ->
         is_ascii (GithubSignatureVerification.hexdigest srv secret body) = true ->
         signature <> GithubSignatureVerification.hexdigest srv secret body ->
         GithubSignatureVerification.lambda_handler srv event
         = (Ok (response 403 "Forbidden: Invalid signature"),
            [GithubSignatureVerification.GetSecretValue]))
  /\ (forall github_secret headers signature_header,
         GithubSignatureVerification.get_secret srv = Ok github_secret ->
         dict_get event "headers" = Ok headers ->
         dict_get headers "X-Hub-Signature-256" = Ok (VStr signature_header) ->
         signature_header <> EmptyString ->
         nth_error (split_on "=" signature_header) 1 = None ->
         GithubSignatureVerification.lambda_handler srv event
         = (Err IndexError, [GithubSignatureVerification.GetSecretValue]))
  /\ (forall github_secret headers signature_header,
         GithubSignatureVerification.get_secret srv = Ok github_secret ->
         dict_get event "headers" = Ok headers ->
         dict_get headers "X-Hub-Signature-256" = Ok signature_header ->
         truthy signature_header = true ->
         (forall s, signature_header <> VStr s) ->
         GithubSignatureVerification.lambda_handler srv event
         = (Err AttributeError, [GithubSignatureVerification.GetSecretValue]))
  /\ (forall github_secret headers signature_header signature payload,
         GithubSignatureVerification.get_secret srv = Ok github_secret ->
         dict_get event "headers" = Ok headers ->
         dict_get headers "X-Hub-Signature-256" = Ok (VStr signature_header) ->
         nth_error (split_on "=" signature_header) 1 = Some signature ->
         dict_get event "body" = Ok payload ->
         json_serializable payload = true ->
         ((forall s, github_secret <> VStr s) \/ (forall s, payload <> VStr s)) ->
         GithubSignatureVerification.lambda_handler srv event
         = (Err AttributeError, [GithubSignatureVerification.GetSecretValue]))
  /\ (forall secret headers signature_header signature body,
         GithubSignatureVerification.get_secret srv = Ok (VStr secret) ->
         dict_get event "headers" = Ok headers ->
         dict_get headers "X-Hub-Signature-256" = Ok (VStr signature_header) ->
         nth_error (split_on "=" signature_header) 1 = Some signature ->
         dict_get event "body" = Ok (VStr body) ->
         is_ascii (GithubSignatureVerification.hexdigest srv secret body)
         && is_ascii signature = false ->
         GithubSignatureVerification.lambda_handler srv event
         = (Err TypeError, [GithubSignatureVerification.GetSecretValue])).
Proof.
  unfold GithubSignatureVerification.lambda_handler.
  split; [|split; [|split; [|split; [|split; [|split]]]]].
  - intros e ->. reflexivity.
  - intros github_secret headers header -> Hheaders Hheader Hfalsy.
    unfold GithubSignatureVerification.check.
    rewrite Hheaders. cbn [rbind]. rewrite Hheader. cbn [rbind]. rewrite Hfalsy. reflexivity.
  - intros secret headers header signature body -> Hheaders Hheader Hpart Hbody
           Hascii Hascii' Hneq.
    unfold GithubSignatureVerification.check.
    rewrite Hheaders. cbn [rbind]. rewrite Hheader. cbn [rbind].
    rewrite (truthy_str _ (split_on_second_part _ _ _ Hpart)). cbn [negb].
    unfold GithubSignatureVerification.signature_value. rewrite Hpart. cbn [rbind].
    rewrite Hbody. cbn [rbind json_dumps json_serializable].
    unfold GithubSignatureVerification.verify_signature.
    cbn [GithubSignatureVerification.encode rbind].
    rewrite (compare_digest_neq _ _ Hascii' Hascii (fun H => Hneq (eq_sym H))).
    reflexivity.
  - intros github_secret headers header -> Hheaders Hheader Hfilled Hnone.
    unfold GithubSignatureVerification.check.
    rewrite Hheaders. cbn [rbind]. rewrite Hheader. cbn [rbind].
    rewrite (truthy_str _ Hfilled). cbn [negb].
    unfold GithubSignatureVerification.signature_value. rewrite Hnone. reflexivity.
  - intros github_secret headers header -> Hheaders Hheader Htruthy Hother.
    unfold GithubSignatureVerification.check.
    rewrite Hheaders. cbn [rbind]. rewrite Hheader. cbn [rbind].
    rewrite Htruthy. cbn [negb].
    destruct header; try reflexivity. exfalso. apply (Hother s). reflexivity.
  - intros github_secret headers header signature payload -> Hheaders Hheader Hpart Hbody
           Hjson Hother.
    unfold GithubSignatureVerification.check.
    rewrite Hheaders. cbn [rbind]. rewrite Hheader. cbn [rbind].
    rewrite (truthy_str _ (split_on_second_part _ _ _ Hpart)). cbn [negb].
    unfold GithubSignatureVerification.signature_value. rewrite Hpart. cbn [rbind].
    rewrite Hbody. cbn [rbind]. unfold json_dumps. rewrite Hjson. cbn [rbind].
    unfold GithubSignatureVerification.verify_signature.
    destruct Hother as [Hother|Hother].
    + destruct github_secret; try reflexivity. exfalso. apply (Hother s). reflexivity.
    + destruct github_secret; try reflexivity.
      cbn [GithubSignatureVerification.encode rbind].
      destruct payload; try reflexivity. exfalso. apply (Hother s0). reflexivity.
  - intros secret headers header signature body -> Hheaders Hheader Hpart Hbody Hascii.
    unfold GithubSignatureVerification.check.
    rewrite Hheaders. cbn [rbind]. rewrite Hheader. cbn [rbind].
    rewrite (truthy_str _ (split_on_second_part _ _ _ Hpart)). cbn [negb].
    unfold GithubSignatureVerification.signature_value. rewrite Hpart. cbn [rbind].
    rewrite Hbody. cbn [rbind json_dumps json_serializable].
    unfold GithubSignatureVerification.verify_signature.
    cbn [GithubSignatureVerification.encode rbind].
    rewrite (compare_digest_not_ascii _ _ Hascii). reflexivity.
Qed.

Lemma unsigned_deliveries_are_refused_witness :
  GithubSignatureVerification.lambda_handler Webhook.services (Webhook.delivery "garbage")
  = (Err IndexError, [GithubSignatureVerification.GetSecretValue]).
Proof.
  apply (proj1 (proj2 (proj2 (proj2 (unsigned_deliveries_are_refused
           Webhook.services (Webhook.delivery "garbage")))))
           (VStr "s3cr3t") (VDict [("X-Hub-Signature-256", VStr "garbage")]) "garbage");
    try reflexivity.
  discriminate.
Defined.

(** X24. A delivery with a valid signature is forwarded once and its
    response relayed. With a secret that is a [str], a signature that
    equals the digest of the body, a request context that names a domain
    and a stage and a URL that parses with scheme http or https: when the
    connection object can be built for the host, the handler makes the
    request once and answers with the status, the headers and the body of
    the response, or with 500 when the exchange raises; when the
    connection object cannot be built (the constructor raises on the host)
    it answers 500 and makes no request. *)
Theorem signed_delivery_is_forwarded
        (srv : GithubSignatureVerification.Services) (event : value)
        (secret : string) (headers : list (string * value))
        (signature_header body : string)
        (request_context domain_name stage : value)
        (parsed_url : GithubSignatureVerification.ParseResult) :
  GithubSignatureVerification.get_secret srv = Ok (VStr secret) ->
  dict_get event "headers" = Ok (VDict headers) ->
  dict_get (VDict headers) "X-Hub-Signature-256" = Ok (VStr signature_header) ->
  nth_error (split_on "=" signature_header) 1
  = Some (GithubSignatureVerification.hexdigest srv secret body) ->
  dict_get event "body" = Ok (VStr body) ->
  is_ascii (GithubSignatureVerification.hexdigest srv secret body) = true ->
  subscript event "requestContext" = Ok request_context ->
  subscript request_context "domainName" = Ok domain_name ->
  subscript request_context "stage" = Ok stage ->
  GithubSignatureVerification.urlparse
    srv ("https://" ++ GithubSignatureVerification.str_of srv domain_name
         ++ "/" ++ GithubSignatureVerification.str_of srv stage)
  = Ok parsed_url ->
  in_list (GithubSignatureVerification.scheme parsed_url) ["http"; "https"] = true ->
  (GithubSignatureVerification.connection srv (GithubSignatureVerification.netloc parsed_url)
   = Ok tt ->
   GithubSignatureVerification.lambda_handler srv event
   = (Ok match GithubSignatureVerification.https_post
                 srv (GithubSignatureVerification.netloc parsed_url)
                 (GithubSignatureVerification.path parsed_url ++ "/firehose")
                 (GithubSignatureVerification.dumps srv (VStr body))
                 (VDict (assoc_set "Content-Type" (VStr "application/json") headers)) with
         | Ok (status, response_headers, response_body) =>
             VDict [("statusCode", VInt status); ("headers", response_headers);
                    ("body", VStr response_body)]
         | Err _ => response 500 "Internal Server Error: Failed to forward request"
         end,
      [GithubSignatureVerification.GetSecretValue;
       GithubSignatureVerification.Post
         (GithubSignatureVerification.netloc parsed_url)
         (GithubSignatureVerification.path parsed_url ++ "/firehose")
         (GithubSignatureVerification.dumps srv (VStr body))
         (VDict (assoc_set "Content-Type" (VStr "application/json") headers))]))
  /\ (forall e,
         GithubSignatureVerification.connection
           srv (GithubSignatureVerification.netloc parsed_url) = Err e ->
         GithubSignatureVerification.lambda_handler srv event
         = (Ok (response 500 "Internal Server Error: Failed to forward request"),
            [GithubSignatureVerification.GetSecretValue])).
Proof.
  intros Hsecret Hheaders Hheader Hpart Hbody Hascii Hcontext Hdomain Hstage Hparse Hscheme.
  assert (Hcheck : GithubSignatureVerification.check srv (VStr secret) event
                   = Ok (GithubSignatureVerification.Forward
                           parsed_url (GithubSignatureVerification.dumps srv (VStr body))
                           (VDict headers))).
  { unfold GithubSignatureVerification.check.
    rewrite Hheaders. cbn [rbind]. rewrite Hheader. cbn [rbind].
    rewrite (truthy_str _ (split_on_second_part _ _ _ Hpart)). cbn [negb].
    unfold GithubSignatureVerification.signature_value. rewrite Hpart. cbn [rbind].
    rewrite Hbody. cbn [rbind json_dumps json_serializable].
    unfold GithubSignatureVerification.verify_signature.
    cbn [GithubSignatureVerification.encode rbind].
    unfold compare_digest. rewrite Hascii, String.eqb_refl. cbn [andb negb rbind].
    rewrite Hcontext. cbn [rbind]. rewrite Hdomain. cbn [rbind]. rewrite Hstage. cbn [rbind].
    unfold GithubSignatureVerification.validate_url. rewrite Hparse. cbn [rbind].
    rewrite Hscheme. reflexivity. }
  unfold GithubSignatureVerification.lambda_handler. rewrite Hsecret, Hcheck.
  unfold GithubSignatureVerification.forward.
  split.
  - intros Hconnection. rewrite Hconnection. cbn [rbind set_item]. reflexivity.
  - intros e Hconnection. rewrite Hconnection. reflexivity.
Qed.

Lemma signed_delivery_is_forwarded_witness :
  GithubSignatureVerification.lambda_handler Webhook.services (Webhook.delivery "sha256=0f3a")
  = (Ok (VDict [("statusCode", VInt 200); ("headers", VDict []); ("body", VStr "ok")]),
     [GithubSignatureVerification.GetSecretValue;
      GithubSignatureVerification.Post
        "abc123.execute-api.us-east-1.amazonaws.com" "/prod/firehose" "payload"
        (VDict [("X-Hub-Signature-256", VStr "sha256=0f3a");
                ("Content-Type", VStr "application/json")])]).
Proof.
  apply (proj1 (signed_delivery_is_forwarded
           Webhook.services (Webhook.delivery "sha256=0f3a") "s3cr3t"
           [("X-Hub-Signature-256", VStr "sha256=0f3a")] "sha256=0f3a" "{}"
           (VDict [("domainName", VStr "abc123.execute-api.us-east-1.amazonaws.com");
                   ("stage", VStr "prod")])
           (VStr "abc123.execute-api.us-east-1.amazonaws.com") (VStr "prod")
           (GithubSignatureVerification.mkParseResult
              "https" "abc123.execute-api.us-east-1.amazonaws.com" "/prod")
           eq_refl eq_refl eq_refl eq_refl eq_refl eq_refl eq_refl eq_refl eq_refl
           eq_refl eq_refl)).
  reflexivity.
Defined.

Lemma forwarding_requires_valid_signature_witness :
  exists secret,
    GithubSignatureVerification.get_secret Webhook.services = Ok (VStr secret)
    /\ signed_with Webhook.services secret (Webhook.delivery "sha256=0f3a").
Proof.
  apply (forwarding_requires_valid_signature
           Webhook.services (Webhook.delivery "sha256=0f3a")
           "abc123.execute-api.us-east-1.amazonaws.com" "/prod/firehose" "payload"
           (VDict [("X-Hub-Signature-256", VStr "sha256=0f3a");
                   ("Content-Type", VStr "application/json")])).
  right. left. reflexivity.
Defined.

Lemma forwarded_request_comes_from_the_event_witness :
  exists event_headers payload request_context domain_name stage parsed_url,
    dict_get (Webhook.delivery "sha256=0f3a") "headers" = Ok event_headers
    /\ set_item event_headers "Content-Type" (VStr "application/json")
       = Ok (VDict [("X-Hub-Signature-256", VStr "sha256=0f3a");
                    ("Content-Type", VStr "application/json")])
    /\ dict_get (Webhook.delivery "sha256=0f3a") "body" = Ok payload
    /\ "payload" = GithubSignatureVerification.dumps Webhook.services payload
    /\ subscript (Webhook.delivery "sha256=0f3a") "requestContext" = Ok request_context
    /\ subscript request_context "domainName" = Ok domain_name
    /\ subscript request_context "stage" = Ok stage
    /\ GithubSignatureVerification.urlparse
         Webhook.services
         ("https://" ++ GithubSignatureVerification.str_of Webhook.services domain_name
          ++ "/" ++ GithubSignatureVerification.str_of Webhook.services stage)
       = Ok parsed_url
    /\ "abc123.execute-api.us-east-1.amazonaws.com"
       = GithubSignatureVerification.netloc parsed_url
    /\ "/prod/firehose" = (GithubSignatureVerification.path parsed_url ++ "/firehose")%string.
Proof.
  apply (forwarded_request_comes_from_the_event
           Webhook.services (Webhook.delivery "sha256=0f3a")
           "abc123.execute-api.us-east-1.amazonaws.com" "/prod/firehose" "payload"
           (VDict [("X-Hub-Signature-256", VStr "sha256=0f3a");
                   ("Content-Type", VStr "application/json")])).
  right. left. reflexivity.
Defined.

(** ** The incident id, on every message *)














(** ** Deployments that count, on the answers of CodePipeline *)








